(** * A shallow embedding of the exchange client of hyperliquid-rust-sdk

    Sources: [src/exchange/exchange_client.rs] (the [ExchangeClient] and its
    public operations) and [src/signature/agent.rs] (the three EIP-712
    [Agent] domains).

    Modelling choices.
    - Hashes and signatures are kept symbolic: [keccak t] is the digest of the
      ABI encoding of the token [t], and a signature records who signed which
      typed message under which EIP-712 domain.  The claims are about what is
      hashed and signed, which this representation states exactly.
    - Effects run in a small state/error monad over a [world]: successive
      readings of the millisecond clock, successive draws of the random
      source, the log of payloads handed to the HTTP transport, and the
      transport's answer.
    - [f64] values are IEEE binary64 numbers in the Standard Library's
      [SpecFloat] model, so [amount * 1_000_000.0] rounds as the machine does.
    - The derivation of an address from a secp256k1 secret (inside [ethers])
      is a section variable: the theorems hold for every such function. *)

From Stdlib Require Import ZArith Ascii String SpecFloat.
From stdpp Require Import base gmap strings list pretty.

#[local] Set Warnings "-register-all".
Local Open Scope Z_scope.

(** ** IEEE binary64 ([f64]) *)

Module F64.

Definition prec : Z := 53.
Definition emax : Z := 1024.

Definition f64 := spec_float.

(** An integer converted to the nearest [f64]. *)
Definition of_Z (z : Z) : f64 := binary_normalize prec emax z 0 false.

Definition mul (x y : f64) : f64 := SFmul prec emax x y.
Definition div (x y : f64) : f64 := SFdiv prec emax x y.

(** The decimal literal [m * 10^-k]: a correctly rounded quotient of two
    exactly representable integers, which is what Rust's literal parser
    produces (round to nearest, ties to even). *)
Definition dec (m : Z) (k : nat) : f64 := div (of_Z m) (of_Z (10 ^ Z.of_nat k)).

Definition i64_min : Z := - 2 ^ 63.
Definition i64_max : Z := 2 ^ 63 - 1.

(** Magnitude of [f64::round] on the finite value [m * 2^e]: the nearest
    integer, half-way cases away from zero. *)
Definition round_half_away_mag (m : positive) (e : Z) : Z :=
  if 0 <=? e then Z.pos m * 2 ^ e
  else (2 * Z.pos m + 2 ^ (- e)) / (2 * 2 ^ (- e)).

(** [x.round() as i64]: [round] keeps zeros, infinities and NaN; the
    saturating cast sends NaN to 0 and clamps to the [i64] range. *)
Definition round_as_i64 (x : f64) : Z :=
  match x with
  | S754_zero _ => 0
  | S754_nan => 0
  | S754_infinity false => i64_max
  | S754_infinity true => i64_min
  | S754_finite s m e =>
      let r := round_half_away_mag m e in
      if s then Z.max i64_min (- r) else Z.min i64_max r
  end.

End F64.

(** ** Hex encoding of a 32-byte key and [LocalWallet]'s [FromStr] *)

Module Hex.

Definition hex_digit (d : Z) : ascii :=
  match d with
  | 0 => "0" | 1 => "1" | 2 => "2" | 3 => "3" | 4 => "4" | 5 => "5"
  | 6 => "6" | 7 => "7" | 8 => "8" | 9 => "9" | 10 => "a" | 11 => "b"
  | 12 => "c" | 13 => "d" | 14 => "e" | _ => "f"
  end%char.

Definition hex_val (c : ascii) : option Z :=
  let n := Z.of_nat (nat_of_ascii c) in
  if (48 <=? n) && (n <=? 57) then Some (n - 48)         (* '0' .. '9' *)
  else if (97 <=? n) && (n <=? 102) then Some (n - 87)   (* 'a' .. 'f' *)
  else if (65 <=? n) && (n <=? 70) then Some (n - 55)    (* 'A' .. 'F' *)
  else None.

(** The [k] low hex digits of [z], most significant first, before [acc]. *)
Fixpoint hex_digits (k : nat) (z : Z) (acc : string) : string :=
  match k with
  | O => acc
  | S k' => hex_digits k' (z / 16) (String (hex_digit (z mod 16)) acc)
  end.

(** [H256::from(bytes).encode_hex()]: ["0x"] then the 64 hex digits of the
    32 big-endian bytes. *)
Definition encode_hex (bytes : Z) : string :=
  "0x" +:+ hex_digits 64 bytes "".

(** [s[2..]]. *)
Definition drop2 (s : string) : string := substring 2 (String.length s - 2) s.

Fixpoint hex_decode (s : string) (acc : Z) : option Z :=
  match s with
  | EmptyString => Some acc
  | String c s' =>
      match hex_val c with
      | Some d => hex_decode s' (acc * 16 + d)
      | None => None
      end
  end.

(** [strip_prefix("0x").or_else(|| strip_prefix("0X")).unwrap_or(s)]. *)
Definition strip_0x (s : string) : string :=
  match s with
  | String c0 (String cx r) =>
      if (Ascii.eqb c0 "0" && (Ascii.eqb cx "x" || Ascii.eqb cx "X"))%bool then r else s
  | _ => s
  end.

(** Order of the secp256k1 group: a secret scalar must lie in [1, n). *)
Definition secp256k1_n : Z :=
  0xFFFFFFFFFFFFFFFFFFFFFFFFFFFFFFFEBAAEDCE6AF48A03BBFD25E8CD0364141.

(** Decoding of a private key as [ethers] does it: optional [0x], hex
    digits, exactly 32 bytes, then a valid non-zero scalar. *)
Definition parse_secret (s : string) : option Z :=
  let h := strip_0x s in
  if decide (String.length h = 64%nat) then
    match hex_decode h 0 with
    | Some k => if (0 <? k) && (k <? secp256k1_n) then Some k else None
    | None => None
    end
  else None.

End Hex.

(** ** Values of the exchange client *)

Module Exchange.

Import F64.

(** Errors of the crate ([crate::Error]) that these operations can raise. *)
Inductive error :=
| AssetNotFound
| JsonParse (msg : string)
| PrivateKeyParse (msg : string)
| RandGen (msg : string)
| ChainNotAllowed.

(** Rust's [Result<A, Error>]. *)
Inductive result (A : Type) :=
| Ok (a : A)
| Err (e : error).
Arguments Ok {A} a.
Arguments Err {A} e.

(** [ethers::abi::Token]: the ABI shape of a hashed Rust value.  [u32],
    [u64] become [TUint], [i32], [i64] become [TInt], [H160] becomes
    [TAddress], [String] [TString], a [Vec] a [TArray] and a Rust tuple a [TTuple]. *)
Inductive abi_token :=
| TUint (z : Z)
| TInt (z : Z)
| TBool (b : bool)
| TAddress (a : Z)
| TString (s : string)
| TArray (ts : list abi_token)
| TTuple (ts : list abi_token).

(** [H256] values of this code are all [keccak(x)] digests. *)
Inductive h256 := keccak (input : abi_token).

(** The EIP-712 domain of a typed structure. *)
Record eip712_domain := {
  domain_name : string;
  domain_version : string;
  chain_id : Z;
  verifying_contract : Z
}.

(** The typed structures that get signed. *)
Inductive typed_message :=
| Agent (source : string) (connection_id : h256)
| UsdTransferSignPayload (destination : string) (amount : string) (time : Z).

(** A recoverable ECDSA signature of a typed structure; [ethers] signs
    deterministically, so the triple determines the signature. *)
Record Signature := Sig {
  signer : Z;
  sig_domain : eip712_domain;
  sig_message : typed_message
}.

(** [LocalWallet]: a secret key and the address derived from it. *)
Record LocalWallet := { wallet_secret : Z; wallet_address : Z }.

(** [crate::helpers::ChainType]. *)
Inductive ChainType :=
| L1 | HyperliquidMainnet | HyperliquidTestnet | Arbitrum | ArbitrumGoerli.

(** The three [Agent] domains of [signature/agent.rs]. *)
Definition exchange_domain (cid : Z) : eip712_domain :=
  {| domain_name := "Exchange"; domain_version := "1";
     chain_id := cid; verifying_contract := 0 |}.
Definition l1_agent_domain : eip712_domain := exchange_domain 1337.
Definition mainnet_agent_domain : eip712_domain := exchange_domain 42161.
Definition testnet_agent_domain : eip712_domain := exchange_domain 421613.

(** Modelled from the spec: [signature::sign_with_agent] (not in the
    sources).  It signs an [Agent] structure under the domain that belongs to
    the chain type; the three domains are those of [signature/agent.rs]. *)
Definition sign_with_agent (w : LocalWallet) (chain : ChainType) (source : string)
    (connection_id : h256) : result Signature :=
  let msg := Agent source connection_id in
  match chain with
  | L1 => Ok (Sig (wallet_secret w) l1_agent_domain msg)
  | HyperliquidMainnet => Ok (Sig (wallet_secret w) mainnet_agent_domain msg)
  | HyperliquidTestnet => Ok (Sig (wallet_secret w) testnet_agent_domain msg)
  | Arbitrum | ArbitrumGoerli => Err ChainNotAllowed
  end.

(** Modelled from the spec: [signature::sign_l1_action] (not in the sources).
    Its call sites pass only the wallet and the connection id; it signs the
    [Agent] structure with the fixed L1 tag. *)
Definition sign_l1_action (w : LocalWallet) (connection_id : h256) : result Signature :=
  sign_with_agent w L1 "a" connection_id.

(** Modelled from the spec: the domains of
    [HyperliquidTransaction:UsdTransfer] (module [usdc_transfer], not in the
    sources): chain id 42161 on mainnet and a distinct testnet chain id. *)
Definition usd_transfer_mainnet_domain : eip712_domain := exchange_domain 42161.
Definition usd_transfer_testnet_domain : eip712_domain := exchange_domain 421613.

(** Modelled from the spec: [signature::sign_usd_transfer_action] (not in
    the sources): signs [{destination, amount, time}] directly. *)
Definition sign_usd_transfer_action (w : LocalWallet) (chain : ChainType)
    (amount destination : string) (timestamp : Z) : result Signature :=
  let msg := UsdTransferSignPayload destination amount timestamp in
  match chain with
  | HyperliquidMainnet => Ok (Sig (wallet_secret w) usd_transfer_mainnet_domain msg)
  | HyperliquidTestnet => Ok (Sig (wallet_secret w) usd_transfer_testnet_domain msg)
  | _ => Err ChainNotAllowed
  end.

(** Modelled from the spec: [consts::MAINNET_API_URL] (not in the sources). *)
Definition MAINNET_API_URL : string := "https://api.hyperliquid.xyz".

(** *** Requests *)

(** Modelled from the spec: [ClientOrderRequest] and its order type (module
    [exchange::order], not in the sources).  Prices and sizes are kept in
    the integer units the verifier hashes. *)
Inductive ClientOrder :=
| Limit (tif : string)
| Trigger (trigger_px : Z) (is_market : bool) (tpsl : string).

Record ClientOrderRequest := {
  asset : string;
  is_buy : bool;
  reduce_only : bool;
  limit_px : Z;
  sz : Z;
  order_type : ClientOrder;
  cloid : option Z
}.

(** The wire form of an order, with its asset resolved to an index. *)
Record OrderRequest := {
  o_asset : Z;
  o_is_buy : bool;
  o_reduce_only : bool;
  o_limit_px : Z;
  o_sz : Z;
  o_order_type : ClientOrder;
  o_cloid : option Z
}.

Record ClientCancelRequest := { cancel_asset : string; cancel_oid : Z }.

Record CancelRequest := { c_asset : Z; c_oid : Z }.

(** [exchange::actions]. *)
Record BulkOrder := { grouping : string; orders : list OrderRequest }.

Record AgentConnect := { connect_chain : string; agent : typed_message; agent_address : Z }.

(** The [Actions] enum, serialized with a [type] tag. *)
Inductive Actions :=
| UsdTransfer (chain : string) (payload : typed_message)
| UpdateLeverage (l_asset : Z) (is_cross : bool) (leverage : Z)
| UpdateIsolatedMargin (m_asset : Z) (m_is_buy : bool) (ntli : Z)
| Order (b : BulkOrder)
| Cancel (cancels : list CancelRequest)
| Connect (c : AgentConnect).

(** [ExchangePayload], the envelope sent to [/exchange]. *)
Record ExchangePayload := {
  action : Actions;
  signature : Signature;
  nonce : Z;
  vault_address : option Z
}.

(** [ExchangeResponseStatus]: the server's answer, opaque here. *)
Inductive ExchangeResponseStatus :=
| StatusOk (body : string)
| StatusErr (msg : string).

(** [Meta]: the instrument universe. *)
Record AssetMeta := { name : string; sz_decimals : Z }.
Record Meta := { universe : list AssetMeta }.

(** ** The world the client runs in, and its monad *)

Record world := {
  clock : nat -> Z;                 (* the k-th reading of [now_timestamp_ms] *)
  reads : nat;                      (* readings taken so far *)
  entropy : nat -> option Z;        (* the k-th fill of 32 random bytes *)
  draws : nat;                      (* fills taken so far *)
  posted : list (string * ExchangePayload);  (* bodies handed to the transport *)
  transport : string -> ExchangePayload -> result ExchangeResponseStatus;
  fetch_meta : string -> result Meta
}.

Definition with_reads (w : world) (n : nat) : world :=
  {| clock := clock w; reads := n; entropy := entropy w; draws := draws w;
     posted := posted w; transport := transport w; fetch_meta := fetch_meta w |}.
Definition with_draws (w : world) (n : nat) : world :=
  {| clock := clock w; reads := reads w; entropy := entropy w; draws := n;
     posted := posted w; transport := transport w; fetch_meta := fetch_meta w |}.
Definition with_posted (w : world) (l : list (string * ExchangePayload)) : world :=
  {| clock := clock w; reads := reads w; entropy := entropy w; draws := draws w;
     posted := l; transport := transport w; fetch_meta := fetch_meta w |}.

Definition M (A : Type) : Type := world -> result A * world.

Definition ret {A} (a : A) : M A := fun w => (Ok a, w).
Definition bind {A B} (m : M A) (k : A -> M B) : M B :=
  fun w => match m w with
           | (Ok a, w') => k a w'
           | (Err e, w') => (Err e, w')
           end.
(** The [?] operator on a [Result] computed without effects. *)
Definition lift {A} (r : result A) : M A := fun w => (r, w).

Notation "'let?' x ':=' m 'in' k" := (bind m (fun x => k))
  (at level 200, x binder, m at level 100, k at level 200).

(** [helpers::now_timestamp_ms]. *)
Definition now_timestamp_ms : M Z :=
  fun w => (Ok (clock w (reads w)), with_reads w (S (reads w))).

(** [helpers::generate_random_key]: 32 random bytes, or [RandGen]. *)
Definition generate_random_key : M Z :=
  fun w => let w' := with_draws w (S (draws w)) in
           match entropy w (draws w) with
           | Some bytes => (Ok bytes, w')
           | None => (Err (RandGen "rng failure"), w')
           end.

(** ** The client *)

Record ExchangeClient := {
  base_url : string;          (* [http_client.base_url] *)
  wallet : LocalWallet;
  meta : Meta;
  vault : option Z;           (* [vault_address] *)
  coin_to_asset : gmap string Z
}.

(** The loop of [ExchangeClient::new]: [coin_to_asset.insert(asset.name,
    asset_ind as u32)] for each [(asset_ind, asset)] of the enumeration. *)
Fixpoint coin_to_asset_from (asset_ind : nat) (l : list AssetMeta)
    (m : gmap string Z) : gmap string Z :=
  match l with
  | [] => m
  | a :: l' => coin_to_asset_from (S asset_ind) l'
                 (<[name a := Z.of_nat asset_ind mod 2 ^ 32]> m)
  end.

Definition build_coin_to_asset (u : list AssetMeta) : gmap string Z :=
  coin_to_asset_from 0 u ∅.

(** [ExchangeClient::new] (the [reqwest::Client] is not modelled). *)
Definition new (w : LocalWallet) (base_url_opt : option string)
    (meta_opt : option Meta) (vault_address : option Z) : M ExchangeClient :=
  let url := default MAINNET_API_URL base_url_opt in
  let? m := match meta_opt with
            | Some m => ret m
            | None => fun wd => (fetch_meta wd url, wd)
            end in
  ret {| base_url := url; wallet := w; meta := m; vault := vault_address;
         coin_to_asset := build_coin_to_asset (universe m) |}.

(** [ExchangeClient::post]: the payload is handed to the transport at
    [/exchange] and its answer is returned.  Serializing these payloads
    cannot fail, so the first [map_err] is never taken. *)
Definition post (self : ExchangeClient) (a : Actions) (s : Signature) (n : Z)
    : M ExchangeResponseStatus :=
  fun w =>
    let p := {| action := a; signature := s; nonce := n; vault_address := vault self |} in
    (transport w (base_url self) p, with_posted w (posted w ++ [(base_url self, p)])).

(** The network test written inline in [usdc_transfer] and [approve_agent]. *)
Definition select_chain (self : ExchangeClient) : ChainType * string :=
  if String.eqb (base_url self) MAINNET_API_URL
  then (HyperliquidMainnet, "Arbitrum")
  else (HyperliquidTestnet, "ArbitrumGoerli").

Definition usdc_transfer (self : ExchangeClient) (amount destination : string)
    : M ExchangeResponseStatus :=
  let '(chain, l1_name) := select_chain self in
  let? timestamp := now_timestamp_ms in
  let payload := UsdTransferSignPayload destination amount timestamp in
  let a := UsdTransfer l1_name payload in
  let? s := lift (sign_usd_transfer_action (wallet self) chain amount destination timestamp) in
  post self a s timestamp.

(** Modelled from the spec: [ClientOrderRequest::create_hashable_tuple]
    (not in the sources): resolves the symbol, failing with
    [AssetNotFound], and lists the order's fields in a fixed order. *)
Definition order_type_token (t : ClientOrder) : abi_token :=
  match t with
  | Limit tif => TTuple [TString "limit"; TString tif]
  | Trigger px is_market tpsl => TTuple [TString "trigger"; TUint px; TBool is_market; TString tpsl]
  end.

Definition create_hashable_tuple (o : ClientOrderRequest) (m : gmap string Z)
    : result abi_token :=
  match m !! asset o with
  | None => Err AssetNotFound
  | Some a =>
      Ok (TTuple [TUint a; TBool (is_buy o); TUint (limit_px o); TUint (sz o);
                  TBool (reduce_only o); order_type_token (order_type o);
                  TTuple (match cloid o with Some c => [TUint c] | None => [] end)])
  end.

(** Modelled from the spec: [ClientOrderRequest::convert] (not in the
    sources): the same resolution, giving the wire form. *)
Definition convert (o : ClientOrderRequest) (m : gmap string Z) : result OrderRequest :=
  match m !! asset o with
  | None => Err AssetNotFound
  | Some a =>
      Ok {| o_asset := a; o_is_buy := is_buy o; o_reduce_only := reduce_only o;
            o_limit_px := limit_px o; o_sz := sz o; o_order_type := order_type o;
            o_cloid := cloid o |}
  end.

(** The [for order in orders] loop of [bulk_order]. *)
Fixpoint bulk_order_loop (m : gmap string Z) (os : list ClientOrderRequest)
    (hashable_tuples : list abi_token) (transformed_orders : list OrderRequest)
    : result (list abi_token * list OrderRequest) :=
  match os with
  | [] => Ok (hashable_tuples, transformed_orders)
  | o :: os' =>
      match create_hashable_tuple o m with
      | Err e => Err e
      | Ok t =>
          match convert o m with
          | Err e => Err e
          | Ok r => bulk_order_loop m os' (hashable_tuples ++ [t]) (transformed_orders ++ [r])
          end
      end
  end.

Definition bulk_order (self : ExchangeClient) (os : list ClientOrderRequest)
    : M ExchangeResponseStatus :=
  let? timestamp := now_timestamp_ms in
  let vault_address := default 0 (vault self) in
  let? r := lift (bulk_order_loop (coin_to_asset self) os [] []) in
  let '(hashable_tuples, transformed_orders) := r in
  let connection_id :=
    keccak (TTuple [TArray hashable_tuples; TInt 0; TAddress vault_address; TUint timestamp]) in
  let a := Order {| grouping := "na"; orders := transformed_orders |} in
  let? s := lift (sign_l1_action (wallet self) connection_id) in
  post self a s timestamp.

Definition order (self : ExchangeClient) (o : ClientOrderRequest) : M ExchangeResponseStatus :=
  bulk_order self [o].

(** The [for cancel in cancels] loop of [bulk_cancel]. *)
Fixpoint bulk_cancel_loop (m : gmap string Z) (cs : list ClientCancelRequest)
    (hashable_tuples : list abi_token) (transformed_cancels : list CancelRequest)
    : result (list abi_token * list CancelRequest) :=
  match cs with
  | [] => Ok (hashable_tuples, transformed_cancels)
  | c :: cs' =>
      match m !! cancel_asset c with
      | None => Err AssetNotFound
      | Some a =>
          bulk_cancel_loop m cs'
            (hashable_tuples ++ [TTuple [TUint a; TUint (cancel_oid c)]])
            (transformed_cancels ++ [{| c_asset := a; c_oid := cancel_oid c |}])
      end
  end.

Definition bulk_cancel (self : ExchangeClient) (cs : list ClientCancelRequest)
    : M ExchangeResponseStatus :=
  let? timestamp := now_timestamp_ms in
  let vault_address := default 0 (vault self) in
  let? r := lift (bulk_cancel_loop (coin_to_asset self) cs [] []) in
  let '(hashable_tuples, transformed_cancels) := r in
  let connection_id :=
    keccak (TTuple [TArray hashable_tuples; TAddress vault_address; TUint timestamp]) in
  let a := Cancel transformed_cancels in
  let? s := lift (sign_l1_action (wallet self) connection_id) in
  post self a s timestamp.

Definition cancel (self : ExchangeClient) (c : ClientCancelRequest) : M ExchangeResponseStatus :=
  bulk_cancel self [c].

Definition update_leverage (self : ExchangeClient) (leverage : Z) (coin : string)
    (is_cross : bool) : M ExchangeResponseStatus :=
  let? timestamp := now_timestamp_ms in
  let vault_address := default 0 (vault self) in
  match coin_to_asset self !! coin with
  | None => lift (Err AssetNotFound)
  | Some asset_index =>
      let connection_id :=
        keccak (TTuple [TUint asset_index; TBool is_cross; TUint leverage;
                        TAddress vault_address; TUint timestamp]) in
      let a := UpdateLeverage asset_index is_cross leverage in
      let? s := lift (sign_l1_action (wallet self) connection_id) in
      post self a s timestamp
  end.

Definition update_isolated_margin (self : ExchangeClient) (amount : f64) (coin : string)
    : M ExchangeResponseStatus :=
  let amount := round_as_i64 (mul amount (of_Z 1000000)) in
  let? timestamp := now_timestamp_ms in
  let vault_address := default 0 (vault self) in
  match coin_to_asset self !! coin with
  | None => lift (Err AssetNotFound)
  | Some asset_index =>
      let connection_id :=
        keccak (TTuple [TUint asset_index; TBool true; TInt amount;
                        TAddress vault_address; TUint timestamp]) in
      let a := UpdateIsolatedMargin asset_index true amount in
      let? s := lift (sign_l1_action (wallet self) connection_id) in
      post self a s timestamp
  end.

Section AgentRegistration.

(** The address [ethers] derives from a secret key. *)
Variable address_of_secret : Z -> Z.

(** [key.parse::<LocalWallet>()], with its error mapped to [PrivateKeyParse]. *)
Definition parse_local_wallet (key : string) : result LocalWallet :=
  match Hex.parse_secret key with
  | Some k => Ok {| wallet_secret := k; wallet_address := address_of_secret k |}
  | None => Err (PrivateKeyParse "invalid private key")
  end.

Definition approve_agent (self : ExchangeClient) : M (string * ExchangeResponseStatus) :=
  let? bytes := generate_random_key in
  let key := Hex.drop2 (Hex.encode_hex bytes) in
  let? agent_wallet := lift (parse_local_wallet key) in
  let address := wallet_address agent_wallet in
  let connection_id := keccak (TAddress address) in
  let '(chain, l1_name) := select_chain self in
  let source := "https://hyperliquid.xyz" in
  let a := Connect {| connect_chain := l1_name; agent := Agent source connection_id;
                      agent_address := address |} in
  let? s := lift (sign_with_agent (wallet self) chain source connection_id) in
  let? timestamp := now_timestamp_ms in
  let? status := post self a s timestamp in
  ret (key, status).

End AgentRegistration.

End Exchange.

(** ** Observations used to state the properties *)

Module Observe.

Import F64 Exchange.

(** One call of a public operation of the client. *)
Inductive call :=
| CUsdcTransfer (amount destination : string)
| COrder (o : ClientOrderRequest)
| CBulkOrder (os : list ClientOrderRequest)
| CCancel (c : ClientCancelRequest)
| CBulkCancel (cs : list ClientCancelRequest)
| CUpdateLeverage (leverage : Z) (coin : string) (is_cross : bool)
| CUpdateIsolatedMargin (amount : f64) (coin : string)
| CApproveAgent.

Definition run_call (address_of_secret : Z -> Z) (self : ExchangeClient) (c : call) : M unit :=
  match c with
  | CUsdcTransfer amount destination => let? _ := usdc_transfer self amount destination in ret tt
  | COrder o => let? _ := order self o in ret tt
  | CBulkOrder os => let? _ := bulk_order self os in ret tt
  | CCancel cn => let? _ := cancel self cn in ret tt
  | CBulkCancel cs => let? _ := bulk_cancel self cs in ret tt
  | CUpdateLeverage l coin is_cross => let? _ := update_leverage self l coin is_cross in ret tt
  | CUpdateIsolatedMargin amount coin => let? _ := update_isolated_margin self amount coin in ret tt
  | CApproveAgent => let? _ := approve_agent address_of_secret self in ret tt
  end.

(** The calls signed through [sign_l1_action]. *)
Definition is_l1_call (c : call) : bool :=
  match c with
  | CUsdcTransfer _ _ | CApproveAgent => false
  | _ => true
  end.

(** A symbol of the call that the client cannot resolve. *)
Definition unresolved_symbol (self : ExchangeClient) (c : call) : Prop :=
  match c with
  | COrder o => coin_to_asset self !! asset o = None
  | CBulkOrder os => exists o, o ∈ os /\ coin_to_asset self !! asset o = None
  | CCancel cn => coin_to_asset self !! cancel_asset cn = None
  | CBulkCancel cs => exists cn, cn ∈ cs /\ coin_to_asset self !! cancel_asset cn = None
  | CUpdateLeverage _ coin _ | CUpdateIsolatedMargin _ coin => coin_to_asset self !! coin = None
  | CUsdcTransfer _ _ | CApproveAgent => False
  end.

Definition with_base_url (self : ExchangeClient) (url : string) : ExchangeClient :=
  {| base_url := url; wallet := wallet self; meta := meta self; vault := vault self;
     coin_to_asset := coin_to_asset self |}.

Definition with_vault (self : ExchangeClient) (v : option Z) : ExchangeClient :=
  {| base_url := base_url self; wallet := wallet self; meta := meta self; vault := v;
     coin_to_asset := coin_to_asset self |}.

(** The envelope of an L1 action whose connection id is [keccak hash_input]. *)
Definition l1_envelope (self : ExchangeClient) (a : Actions) (hash_input : abi_token)
    (ts : Z) : ExchangePayload :=
  {| action := a;
     signature := Sig (wallet_secret (wallet self)) l1_agent_domain (Agent "a" (keccak hash_input));
     nonce := ts;
     vault_address := vault self |}.

(** The outcome of a call that read the clock once and then posted [p]. *)
Definition submitted (self : ExchangeClient) (w : world) (p : ExchangePayload)
    : result ExchangeResponseStatus * world :=
  (transport w (base_url self) p,
   with_posted (with_reads w (S (reads w))) (posted w ++ [(base_url self, p)])).

(** The tuple under [keccak] in a signed [Agent] structure. *)
Definition hash_input (p : ExchangePayload) : option abi_token :=
  match sig_message (signature p) with
  | Agent _ (keccak t) => Some t
  | UsdTransferSignPayload _ _ _ => None
  end.

(** The time a signature covers: the [time] of a USD transfer, or the last
    field of a hashed tuple. *)
Definition signed_time (p : ExchangePayload) : option Z :=
  match sig_message (signature p) with
  | UsdTransferSignPayload _ _ t => Some t
  | Agent _ (keccak (TTuple ts)) =>
      match last ts with Some (TUint t) => Some t | _ => None end
  | Agent _ _ => None
  end.

Definition chain_id_of (p : ExchangePayload) : Z := chain_id (sig_domain (signature p)).

(** The statements as the specification words them, for the claims the
    code does not meet. *)

(** The L1 and the USD-transfer signatures both switch to chain 42161 on the
    mainnet URL and to another chain elsewhere. *)
Definition domain_follows_url (address_of_secret : Z -> Z) : Prop :=
  forall self c w u p,
    (is_l1_call c || match c with CUsdcTransfer _ _ => true | _ => false end) = true ->
    posted (snd (run_call address_of_secret self c w)) = posted w ++ [(u, p)] ->
    if String.eqb (base_url self) MAINNET_API_URL
    then chain_id_of p = 42161 else chain_id_of p <> 42161.

(** Every hash input of every operation carries the vault slot, zero-filled
    when no vault is configured. *)
Definition vault_zero_filled_everywhere (address_of_secret : Z -> Z) : Prop :=
  forall self c w u p t,
    vault self = None ->
    posted (snd (run_call address_of_secret self c w)) = posted w ++ [(u, p)] ->
    hash_input p = Some t ->
    exists ts, t = TTuple ts /\ TAddress 0 ∈ ts.

(** Every call reads the clock exactly once. *)
Definition clock_read_once (address_of_secret : Z -> Z) : Prop :=
  forall self c w, reads (snd (run_call address_of_secret self c w)) = S (reads w).

(** Each symbol, the universe having distinct symbols, maps to its position. *)
Definition index_is_position : Prop :=
  forall (u : list AssetMeta) s j,
    NoDup (map name u) -> map name u !! j = Some s ->
    build_coin_to_asset u !! s = Some (Z.of_nat j).

(** A universe of [2^32 + 1] instruments with distinct names. *)
Definition wide_universe : list AssetMeta :=
  map (fun k => {| name := pretty k; sz_decimals := 0 |}) (seq 0 (S (Z.to_nat (2 ^ 32)))).

(** Concrete values for the examples. *)
Definition sample_world : world :=
  {| clock := fun k => 1700000000000 + Z.of_nat k; reads := 0;
     entropy := fun _ => Some 7; draws := 0; posted := [];
     transport := fun _ _ => Ok (StatusOk "ok");
     fetch_meta := fun _ => Err (JsonParse "offline") |}.

(** The same world whose random source fails. *)
Definition failing_rng_world : world :=
  {| clock := clock sample_world; reads := 0; entropy := fun _ => None; draws := 0;
     posted := []; transport := transport sample_world; fetch_meta := fetch_meta sample_world |}.

Definition sample_universe : list AssetMeta :=
  [ {| name := "BTC"; sz_decimals := 5 |}; {| name := "ETH"; sz_decimals := 4 |} ].

Definition sample_client : ExchangeClient :=
  {| base_url := MAINNET_API_URL;
     wallet := {| wallet_secret := 11; wallet_address := 12 |};
     meta := {| universe := sample_universe |};
     vault := None;
     coin_to_asset := build_coin_to_asset sample_universe |}.

Definition sample_order (coin : string) : ClientOrderRequest :=
  {| asset := coin; is_buy := true; reduce_only := false; limit_px := 2500000;
     sz := 100; order_type := Limit "Gtc"; cloid := None |}.

(** The sample world whose transport refuses every request. *)
Definition failing_transport_world : world :=
  {| clock := clock sample_world; reads := 0; entropy := entropy sample_world; draws := 0;
     posted := []; transport := fun _ _ => Err (JsonParse "connection refused");
     fetch_meta := fetch_meta sample_world |}.

(** The sample world whose random source yields 32 zero bytes. *)
Definition zero_key_world : world :=
  {| clock := clock sample_world; reads := 0; entropy := fun _ => Some 0; draws := 0;
     posted := []; transport := transport sample_world; fetch_meta := fetch_meta sample_world |}.

(** Every character of [s] is a digit or one of [a .. f]. *)
Fixpoint all_lower_hex (s : string) : bool :=
  match s with
  | EmptyString => true
  | String c s' =>
      let n := nat_of_ascii c in
      ((Nat.leb 48 n && Nat.leb n 57) || (Nat.leb 97 n && Nat.leb n 102))%bool
      && all_lower_hex s'
  end.

End Observe.

(** ** Facts *)

Module Facts.

Import F64 Exchange Observe.

(** *** Equations of the operations *)

Lemma bulk_order_eq self os w :
  bulk_order self os w =
  match bulk_order_loop (coin_to_asset self) os [] [] with
  | Err e => (Err e, with_reads w (S (reads w)))
  | Ok (ht, tr) =>
      submitted self w
        (l1_envelope self (Order {| grouping := "na"; orders := tr |})
           (TTuple [TArray ht; TInt 0; TAddress (default 0 (vault self)); TUint (clock w (reads w))])
           (clock w (reads w)))
  end.
Proof.
  unfold bulk_order, bind, lift, now_timestamp_ms; simpl.
  destruct (bulk_order_loop _ _ _ _) as [[ht tr]|e]; reflexivity.
Qed.

Lemma bulk_cancel_eq self cs w :
  bulk_cancel self cs w =
  match bulk_cancel_loop (coin_to_asset self) cs [] [] with
  | Err e => (Err e, with_reads w (S (reads w)))
  | Ok (ht, tr) =>
      submitted self w
        (l1_envelope self (Cancel tr)
           (TTuple [TArray ht; TAddress (default 0 (vault self)); TUint (clock w (reads w))])
           (clock w (reads w)))
  end.
Proof.
  unfold bulk_cancel, bind, lift, now_timestamp_ms; simpl.
  destruct (bulk_cancel_loop _ _ _ _) as [[ht tr]|e]; reflexivity.
Qed.

Lemma update_leverage_eq self l coin is_cross w :
  update_leverage self l coin is_cross w =
  match coin_to_asset self !! coin with
  | None => (Err AssetNotFound, with_reads w (S (reads w)))
  | Some idx =>
      submitted self w
        (l1_envelope self (UpdateLeverage idx is_cross l)
           (TTuple [TUint idx; TBool is_cross; TUint l; TAddress (default 0 (vault self));
                    TUint (clock w (reads w))])
           (clock w (reads w)))
  end.
Proof.
  unfold update_leverage, bind, lift, now_timestamp_ms; simpl.
  destruct (coin_to_asset self !! coin); reflexivity.
Qed.

Lemma update_isolated_margin_eq self amount coin w :
  update_isolated_margin self amount coin w =
  let scaled := round_as_i64 (mul amount (of_Z 1000000)) in
  match coin_to_asset self !! coin with
  | None => (Err AssetNotFound, with_reads w (S (reads w)))
  | Some idx =>
      submitted self w
        (l1_envelope self (UpdateIsolatedMargin idx true scaled)
           (TTuple [TUint idx; TBool true; TInt scaled; TAddress (default 0 (vault self));
                    TUint (clock w (reads w))])
           (clock w (reads w)))
  end.
Proof.
  unfold update_isolated_margin, bind, lift, now_timestamp_ms; simpl.
  destruct (coin_to_asset self !! coin); reflexivity.
Qed.

Lemma usdc_transfer_eq self amount destination w :
  usdc_transfer self amount destination w =
  let t := clock w (reads w) in
  let mainnet := String.eqb (base_url self) MAINNET_API_URL in
  submitted self w
    {| action := UsdTransfer (if mainnet then "Arbitrum" else "ArbitrumGoerli")
                             (UsdTransferSignPayload destination amount t);
       signature := Sig (wallet_secret (wallet self))
                        (if mainnet then usd_transfer_mainnet_domain else usd_transfer_testnet_domain)
                        (UsdTransferSignPayload destination amount t);
       nonce := t;
       vault_address := vault self |}.
Proof.
  unfold usdc_transfer, select_chain, bind, lift, now_timestamp_ms; simpl.
  destruct (String.eqb (base_url self) MAINNET_API_URL); reflexivity.
Qed.

(** *** The loops *)

Lemma bulk_order_loop_resolved m os ht tr :
  Forall (fun o => is_Some (m !! asset o)) os ->
  exists ts rs,
    bulk_order_loop m os ht tr = Ok (ht ++ ts, tr ++ rs) /\
    Forall2 (fun o t => create_hashable_tuple o m = Ok t) os ts /\
    Forall2 (fun o r => convert o m = Ok r) os rs.
Proof.
  revert ht tr. induction os as [|o os IH]; intros ht tr H.
  - exists [], []. rewrite !app_nil_r. auto.
  - apply Forall_cons in H as [[a Ha] Hos].
    simpl. unfold create_hashable_tuple at 1, convert at 1. rewrite Ha.
    edestruct IH as (ts & rs & E & F1 & F2); [exact Hos|].
    rewrite E, <- !app_assoc.
    eexists (_ :: ts), (_ :: rs). split; [reflexivity|].
    split; constructor; auto; unfold create_hashable_tuple, convert; rewrite Ha; reflexivity.
Qed.

Lemma bulk_order_loop_unresolved m os ht tr :
  (exists o, o ∈ os /\ m !! asset o = None) ->
  bulk_order_loop m os ht tr = Err AssetNotFound.
Proof.
  revert ht tr. induction os as [|o os IH]; intros ht tr (o' & Hin & Hnone).
  - apply not_elem_of_nil in Hin. contradiction.
  - simpl. unfold create_hashable_tuple, convert.
    destruct (m !! asset o) as [a|] eqn:Ha; [|reflexivity].
    apply elem_of_cons in Hin as [->|Hin]; [congruence|].
    apply IH. eauto.
Qed.

Lemma bulk_cancel_loop_resolved m cs ht tr :
  Forall (fun c => is_Some (m !! cancel_asset c)) cs ->
  exists ts rs,
    bulk_cancel_loop m cs ht tr = Ok (ht ++ ts, tr ++ rs) /\
    Forall2 (fun c t => exists a, m !! cancel_asset c = Some a /\
                                  t = TTuple [TUint a; TUint (cancel_oid c)]) cs ts /\
    Forall2 (fun c r => exists a, m !! cancel_asset c = Some a /\
                                  r = {| c_asset := a; c_oid := cancel_oid c |}) cs rs.
Proof.
  revert ht tr. induction cs as [|c cs IH]; intros ht tr H.
  - exists [], []. rewrite !app_nil_r. auto.
  - apply Forall_cons in H as [[a Ha] Hcs].
    simpl. rewrite Ha.
    edestruct IH as (ts & rs & E & F1 & F2); [exact Hcs|].
    rewrite E, <- !app_assoc.
    eexists (_ :: ts), (_ :: rs). split; [reflexivity|].
    split; constructor; eauto.
Qed.

Lemma bulk_cancel_loop_unresolved m cs ht tr :
  (exists c, c ∈ cs /\ m !! cancel_asset c = None) ->
  bulk_cancel_loop m cs ht tr = Err AssetNotFound.
Proof.
  revert ht tr. induction cs as [|c cs IH]; intros ht tr (c' & Hin & Hnone).
  - apply not_elem_of_nil in Hin. contradiction.
  - simpl. destruct (m !! cancel_asset c) as [a|] eqn:Ha; [|reflexivity].
    apply elem_of_cons in Hin as [->|Hin]; [congruence|].
    apply IH. eauto.
Qed.

(** *** Hex encoding and decoding of the agent key *)

Lemma hex_val_digit d : 0 <= d < 16 -> Hex.hex_val (Hex.hex_digit d) = Some d.
Proof.
  intros H.
  assert (d = 0 \/ d = 1 \/ d = 2 \/ d = 3 \/ d = 4 \/ d = 5 \/ d = 6 \/ d = 7 \/
          d = 8 \/ d = 9 \/ d = 10 \/ d = 11 \/ d = 12 \/ d = 13 \/ d = 14 \/ d = 15)
    as Hd by lia.
  repeat (destruct Hd as [->|Hd]; [reflexivity|]). subst. reflexivity.
Qed.

Lemma hex_digit_not_x d : Hex.hex_digit d <> "x"%char /\ Hex.hex_digit d <> "X"%char.
Proof.
  unfold Hex.hex_digit.
  destruct d as [|p|p];
    try (repeat match goal with |- context [match ?q with _ => _ end] => destruct q end);
    split; discriminate.
Qed.

Lemma hex_decode_digits k z acc a :
  Hex.hex_decode (Hex.hex_digits k z acc) a =
  Hex.hex_decode acc (a * 16 ^ Z.of_nat k + z mod 16 ^ Z.of_nat k).
Proof.
  revert z acc a. induction k as [|k IH]; intros z acc a.
  - simpl. rewrite Z.mod_1_r. f_equal. lia.
  - simpl Hex.hex_digits. rewrite IH. simpl Hex.hex_decode.
    rewrite hex_val_digit by (apply Z.mod_pos_bound; lia).
    f_equal. rewrite Nat2Z.inj_succ, Z.pow_succ_r by lia.
    rewrite Z.rem_mul_r by (try apply Z.pow_pos_nonneg; lia).
    ring.
Qed.

Lemma hex_digits_length k z acc :
  String.length (Hex.hex_digits k z acc) = (k + String.length acc)%nat.
Proof.
  revert z acc. induction k as [|k IH]; intros z acc; simpl; [reflexivity|].
  rewrite IH. simpl. lia.
Qed.

Lemma hex_digits_front k z d1 d2 r :
  exists e1 e2 r',
    Hex.hex_digits k z (String (Hex.hex_digit d1) (String (Hex.hex_digit d2) r)) =
    String (Hex.hex_digit e1) (String (Hex.hex_digit e2) r').
Proof.
  revert z d1 d2 r. induction k as [|k IH]; intros z d1 d2 r; simpl; [eauto|].
  apply (IH (z / 16) (z mod 16) d1 (String (Hex.hex_digit d2) r)).
Qed.

Lemma strip_0x_hex_digits k z :
  Hex.strip_0x (Hex.hex_digits (S (S k)) z "") = Hex.hex_digits (S (S k)) z "".
Proof.
  simpl Hex.hex_digits.
  destruct (hex_digits_front k (z / 16 / 16) ((z / 16) mod 16) (z mod 16) "")
    as (e1 & e2 & r' & ->).
  unfold Hex.strip_0x. destruct (hex_digit_not_x e2) as [Hx HX].
  apply Ascii.eqb_neq in Hx, HX. rewrite Hx, HX, andb_false_r. reflexivity.
Qed.

Lemma substring_all (s : string) : substring 0 (String.length s) s = s.
Proof. induction s as [|c s IH]; simpl; [reflexivity|]. now rewrite IH. Qed.

Lemma drop2_encode_hex k : Hex.drop2 (Hex.encode_hex k) = Hex.hex_digits 64 k "".
Proof.
  unfold Hex.drop2, Hex.encode_hex.
  generalize (Hex.hex_digits 64 k ""). intros s. simpl.
  rewrite Nat.sub_0_r. apply substring_all.
Qed.

Lemma parse_secret_roundtrip k :
  0 < k < Hex.secp256k1_n -> Hex.parse_secret (Hex.hex_digits 64 k "") = Some k.
Proof.
  intros Hk. unfold Hex.parse_secret.
  change 64%nat with (S (S 62)). rewrite strip_0x_hex_digits.
  change (S (S 62)) with 64%nat.
  rewrite hex_digits_length. simpl (64 + String.length "")%nat.
  rewrite decide_True by reflexivity.
  rewrite hex_decode_digits. simpl Hex.hex_decode.
  assert (Hn : Hex.secp256k1_n < 16 ^ Z.of_nat 64) by (vm_compute; reflexivity).
  rewrite Z.mod_small by lia.
  replace (0 * 16 ^ Z.of_nat 64 + k) with k by ring.
  destruct Hk as [H0 H1]. apply Z.ltb_lt in H0, H1.
  rewrite H0, H1. reflexivity.
Qed.

(** The envelope [approve_agent] posts for the agent address [address]. *)
Lemma approve_agent_eq f self w :
  approve_agent f self w =
  let w1 := with_draws w (S (draws w)) in
  match entropy w (draws w) with
  | None => (Err (RandGen "rng failure"), w1)
  | Some k =>
      let key := Hex.drop2 (Hex.encode_hex k) in
      match parse_local_wallet f key with
      | Err e => (Err e, w1)
      | Ok aw =>
          let cid := keccak (TAddress (wallet_address aw)) in
          let mainnet := String.eqb (base_url self) MAINNET_API_URL in
          let p := {| action := Connect {| connect_chain := if mainnet then "Arbitrum" else "ArbitrumGoerli";
                                           agent := Agent "https://hyperliquid.xyz" cid;
                                           agent_address := wallet_address aw |};
                      signature := Sig (wallet_secret (wallet self))
                                       (if mainnet then mainnet_agent_domain else testnet_agent_domain)
                                       (Agent "https://hyperliquid.xyz" cid);
                      nonce := clock w (reads w);
                      vault_address := vault self |} in
          (match transport w (base_url self) p with
           | Ok st => Ok (key, st)
           | Err e => Err e
           end,
           with_posted (with_reads w1 (S (reads w))) (posted w ++ [(base_url self, p)]))
      end
  end.
Proof.
  unfold approve_agent, bind, lift, generate_random_key.
  destruct (entropy w (draws w)) as [k|]; [|reflexivity].
  cbn -[parse_local_wallet Hex.drop2 Hex.encode_hex].
  destruct (parse_local_wallet f _) as [aw|e]; [|reflexivity].
  unfold select_chain, sign_with_agent, now_timestamp_ms, post, ret.
  destruct (String.eqb (base_url self) MAINNET_API_URL);
    cbn -[Hex.drop2 Hex.encode_hex];
    destruct (transport w (base_url self) _); reflexivity.
Qed.

(** *** Rounding of [f64] *)

Lemma round_half_away_mag_nearest m e :
  e < 0 ->
  let r := round_half_away_mag m e in
  (2 * r - 1) * 2 ^ (- e) <= 2 * Z.pos m < (2 * r + 1) * 2 ^ (- e).
Proof.
  intros He r. unfold r, round_half_away_mag.
  destruct (0 <=? e) eqn:E; [apply Z.leb_le in E; lia|].
  assert (Hd : 0 < 2 ^ (- e)) by (apply Z.pow_pos_nonneg; lia).
  set (d := 2 ^ (- e)) in *.
  pose proof (Z.div_mod (2 * Z.pos m + d) (2 * d) ltac:(lia)) as Hdm.
  pose proof (Z.mod_pos_bound (2 * Z.pos m + d) (2 * d) ltac:(lia)) as Hb.
  set (q := (2 * Z.pos m + d) / (2 * d)) in *.
  set (rr := (2 * Z.pos m + d) mod (2 * d)) in *.
  nia.
Qed.

(** *** Calls *)

Lemma bind_unit_snd {A} (m : M A) w : snd (bind m (fun _ => ret tt) w) = snd (m w).
Proof. unfold bind. destruct (m w) as [[a|e] w']; reflexivity. Qed.

Lemma bind_unit_fst {A} (m : M A) w :
  fst (bind m (fun _ => ret tt) w) =
  match fst (m w) with Ok _ => Ok tt | Err e => Err e end.
Proof. unfold bind. destruct (m w) as [[a|e] w']; reflexivity. Qed.

Lemma posted_extend_inv (l : list (string * ExchangePayload)) x y :
  l ++ [x] = l ++ [y] -> x = y.
Proof. intros H. apply app_inv_head in H. congruence. Qed.

Lemma posted_extend_neq (l : list (string * ExchangePayload)) x : l <> l ++ [x].
Proof. intros H. apply (f_equal length) in H. rewrite length_app in H. simpl in H. lia. Qed.

(** An L1 call either posts nothing or posts one envelope signed over a
    tuple that ends with the vault slot and the clock reading. *)
Lemma l1_call_posts f self c w :
  is_l1_call c = true ->
  let w' := snd (run_call f self c w) in
  reads w' = S (reads w) /\
  (posted w' = posted w \/
   exists a pre,
     posted w' = posted w ++
       [(base_url self,
         l1_envelope self a
           (TTuple (pre ++ [TAddress (default 0 (vault self)); TUint (clock w (reads w))]))
           (clock w (reads w)))]).
Proof.
  intros Hl1 w'. unfold w', run_call.
  destruct c; try discriminate Hl1; rewrite bind_unit_snd;
    try unfold order; try unfold cancel.
  - rewrite bulk_order_eq. destruct (bulk_order_loop _ _ _ _) as [[ht tr]|e];
      split; try reflexivity; [right; eexists _, [_; _]; reflexivity|left; reflexivity].
  - rewrite bulk_order_eq. destruct (bulk_order_loop _ _ _ _) as [[ht tr]|e];
      split; try reflexivity; [right; eexists _, [_; _]; reflexivity|left; reflexivity].
  - rewrite bulk_cancel_eq. destruct (bulk_cancel_loop _ _ _ _) as [[ht tr]|e];
      split; try reflexivity; [right; eexists _, [_]; reflexivity|left; reflexivity].
  - rewrite bulk_cancel_eq. destruct (bulk_cancel_loop _ _ _ _) as [[ht tr]|e];
      split; try reflexivity; [right; eexists _, [_]; reflexivity|left; reflexivity].
  - rewrite update_leverage_eq. destruct (coin_to_asset self !! coin) as [idx|];
      split; try reflexivity; [right; eexists _, [_; _; _]; reflexivity|left; reflexivity].
  - rewrite update_isolated_margin_eq. cbv zeta. destruct (coin_to_asset self !! coin) as [idx|];
      split; try reflexivity; [right; eexists _, [_; _; _]; reflexivity|left; reflexivity].
Qed.

(** *** The symbol table *)

Lemma coin_to_asset_from_absent i l m s :
  s ∉ map name l -> coin_to_asset_from i l m !! s = m !! s.
Proof.
  revert i m. induction l as [|a l IH]; intros i m Hs; simpl; [reflexivity|].
  simpl in Hs. apply not_elem_of_cons in Hs as [Hne Hs].
  rewrite IH by exact Hs. apply lookup_insert_ne. congruence.
Qed.

Lemma coin_to_asset_from_last i l m s j :
  map name l !! j = Some s ->
  (forall j', map name l !! j' = Some s -> (j' <= j)%nat) ->
  coin_to_asset_from i l m !! s = Some (Z.of_nat (i + j) mod 2 ^ 32).
Proof.
  revert i m j. induction l as [|a l IH]; intros i m j Hj Hlast; [discriminate|].
  destruct j as [|j].
  - simpl in Hj. injection Hj as <-. simpl.
    rewrite coin_to_asset_from_absent.
    + rewrite lookup_insert_eq. do 2 f_equal. lia.
    + intros Hin. apply list_elem_of_lookup in Hin as [j' Hj'].
      specialize (Hlast (S j') Hj'). lia.
  - simpl. rewrite (IH (S i) _ j Hj).
    + do 2 f_equal. lia.
    + intros j' Hj'. specialize (Hlast (S j') Hj'). lia.
Qed.

(** A universe of [n + 1] distinct names [pretty 0 .. pretty n]: the last
    name is stored at index [n] taken modulo [2^32]. *)
Lemma numbered_universe_last n :
  let u := map (fun k => {| name := pretty k; sz_decimals := 0 |}) (seq 0 (S n)) in
  NoDup (map name u) /\ map name u !! n = Some (pretty n) /\
  build_coin_to_asset u !! pretty n = Some (Z.of_nat n mod 2 ^ 32).
Proof.
  intros u.
  assert (Hm : map name u = pretty <$> seq 0 (S n)).
  { unfold u. rewrite map_map. reflexivity. }
  assert (Hnd : NoDup (map name u)).
  { rewrite Hm. apply NoDup_fmap_2; [apply _|apply NoDup_seq]. }
  assert (Hl : map name u !! n = Some (pretty n)).
  { rewrite Hm, list_lookup_fmap, lookup_seq_lt by lia. reflexivity. }
  split; [exact Hnd|]. split; [exact Hl|].
  unfold build_coin_to_asset.
  rewrite (coin_to_asset_from_last 0 u ∅ (pretty n) n Hl).
  - reflexivity.
  - intros j' Hj'. rewrite (NoDup_lookup _ _ _ _ Hnd Hj' Hl). lia.
Qed.

End Facts.

(** ** The specification's claims *)

Module Claims.

Import F64 Exchange Observe Facts.

(** C1: when every order of the batch resolves, [bulk_order] signs the
    connection id [keccak((tuples, 0, vault address or zero, timestamp))],
    where [tuples] are the orders' canonical tuples in batch order, and
    posts an [Order] action with grouping ["na"]. *)
Theorem bulk_order_connection_id self os w :
  Forall (fun o => is_Some (coin_to_asset self !! asset o)) os ->
  exists tuples transformed,
    Forall2 (fun o t => create_hashable_tuple o (coin_to_asset self) = Ok t) os tuples /\
    Forall2 (fun o r => convert o (coin_to_asset self) = Ok r) os transformed /\
    bulk_order self os w =
    submitted self w
      (l1_envelope self (Order {| grouping := "na"; orders := transformed |})
         (TTuple [TArray tuples; TInt 0; TAddress (default 0 (vault self));
                  TUint (clock w (reads w))])
         (clock w (reads w))).
Proof.
  intros H.
  destruct (bulk_order_loop_resolved (coin_to_asset self) os [] [] H)
    as (ts & rs & E & F1 & F2).
  exists ts, rs. split; [exact F1|]. split; [exact F2|].
  rewrite bulk_order_eq, E. reflexivity.
Qed.

Lemma bulk_order_connection_id_witness :
  Forall (fun o => is_Some (coin_to_asset sample_client !! asset o)) [sample_order "ETH"] /\
  exists tuples transformed,
    Forall2 (fun o t => create_hashable_tuple o (coin_to_asset sample_client) = Ok t)
      [sample_order "ETH"] tuples /\
    Forall2 (fun o r => convert o (coin_to_asset sample_client) = Ok r)
      [sample_order "ETH"] transformed /\
    bulk_order sample_client [sample_order "ETH"] sample_world =
    submitted sample_client sample_world
      (l1_envelope sample_client (Order {| grouping := "na"; orders := transformed |})
         (TTuple [TArray tuples; TInt 0; TAddress 0; TUint 1700000000000])
         1700000000000).
Proof.
  assert (H : Forall (fun o => is_Some (coin_to_asset sample_client !! asset o))
                [sample_order "ETH"]) by (repeat constructor; eexists; reflexivity).
  split; [exact H|].
  exact (bulk_order_connection_id sample_client [sample_order "ETH"] sample_world H).
Defined.

(** C3: [update_isolated_margin] scales the amount to
    [(amount * 1_000_000.0).round() as i64], rounding half-way cases away
    from zero (1.234567 gives 1234567, 0.0000001 gives 0), and hashes
    [(asset index, true, scaled amount, vault address or zero, timestamp)]. *)
Theorem update_isolated_margin_scaled_hash self amount coin w idx :
  coin_to_asset self !! coin = Some idx ->
  let scaled := round_as_i64 (mul amount (of_Z 1000000)) in
  let t := clock w (reads w) in
  update_isolated_margin self amount coin w =
    submitted self w
      (l1_envelope self (UpdateIsolatedMargin idx true scaled)
         (TTuple [TUint idx; TBool true; TInt scaled; TAddress (default 0 (vault self)); TUint t]) t) /\
  round_as_i64 (mul (dec 1234567 6) (of_Z 1000000)) = 1234567 /\
  round_as_i64 (mul (dec 1 7) (of_Z 1000000)) = 0 /\
  (forall s m e, e < 0 ->
     let r := round_half_away_mag m e in
     (2 * r - 1) * 2 ^ (- e) <= 2 * Z.pos m < (2 * r + 1) * 2 ^ (- e) /\
     round_as_i64 (S754_finite s m e) = if s then Z.max i64_min (- r) else Z.min i64_max r).
Proof.
  intros Hidx scaled t.
  split; [rewrite update_isolated_margin_eq; cbv zeta; rewrite Hidx; reflexivity|].
  split; [vm_compute; reflexivity|].
  split; [vm_compute; reflexivity|].
  intros s m e He r. split; [apply round_half_away_mag_nearest; exact He|reflexivity].
Qed.

Lemma update_isolated_margin_scaled_hash_witness :
  coin_to_asset sample_client !! "BTC" = Some 0 /\
  update_isolated_margin sample_client (dec 1234567 6) "BTC" sample_world =
    submitted sample_client sample_world
      (l1_envelope sample_client (UpdateIsolatedMargin 0 true 1234567)
         (TTuple [TUint 0; TBool true; TInt 1234567; TAddress 0; TUint 1700000000000])
         1700000000000).
Proof.
  assert (H : coin_to_asset sample_client !! "BTC" = Some 0) by reflexivity.
  split; [exact H|].
  destruct (update_isolated_margin_scaled_hash sample_client (dec 1234567 6) "BTC"
              sample_world 0 H) as [E [Hr _]].
  rewrite E. cbv zeta. rewrite Hr. reflexivity.
Defined.

(** C7: [approve_agent] draws a fresh key, derives one address from it,
    has the main wallet sign [keccak(address)] under the [Agent] type with
    source ["https://hyperliquid.xyz"], and returns the key's hex (without
    [0x]) with the transport's status. *)
Theorem approve_agent_registers_key (address_of_secret : Z -> Z) self w k :
  entropy w (draws w) = Some k ->
  0 < k < Hex.secp256k1_n ->
  let key := Hex.drop2 (Hex.encode_hex k) in
  let address := address_of_secret k in
  let cid := keccak (TAddress address) in
  let mainnet := String.eqb (base_url self) MAINNET_API_URL in
  let p := {| action := Connect {| connect_chain := if mainnet then "Arbitrum" else "ArbitrumGoerli";
                                   agent := Agent "https://hyperliquid.xyz" cid;
                                   agent_address := address |};
              signature := Sig (wallet_secret (wallet self))
                               (if mainnet then mainnet_agent_domain else testnet_agent_domain)
                               (Agent "https://hyperliquid.xyz" cid);
              nonce := clock w (reads w);
              vault_address := vault self |} in
  key = Hex.hex_digits 64 k "" /\
  Hex.parse_secret key = Some k /\
  approve_agent address_of_secret self w =
    (match transport w (base_url self) p with
     | Ok st => Ok (key, st)
     | Err e => Err e
     end,
     with_posted (with_reads (with_draws w (S (draws w))) (S (reads w)))
       (posted w ++ [(base_url self, p)])).
Proof.
  intros Hk Hrange key address cid mainnet p.
  assert (Ekey : key = Hex.hex_digits 64 k "") by apply drop2_encode_hex.
  assert (Eparse : Hex.parse_secret key = Some k)
    by (rewrite Ekey; apply parse_secret_roundtrip; exact Hrange).
  split; [exact Ekey|]. split; [exact Eparse|].
  rewrite approve_agent_eq. cbv zeta. rewrite Hk.
  unfold parse_local_wallet. fold key. rewrite Eparse. reflexivity.
Qed.

Lemma approve_agent_registers_key_witness :
  entropy sample_world (draws sample_world) = Some 7 /\ 0 < 7 < Hex.secp256k1_n /\
  approve_agent (fun k => k + 100) sample_client sample_world =
    (Ok ("0000000000000000000000000000000000000000000000000000000000000007", StatusOk "ok"),
     with_posted (with_reads (with_draws sample_world 1) 1)
       [(MAINNET_API_URL,
         {| action := Connect {| connect_chain := "Arbitrum";
                                 agent := Agent "https://hyperliquid.xyz" (keccak (TAddress 107));
                                 agent_address := 107 |};
            signature := Sig 11 mainnet_agent_domain
                             (Agent "https://hyperliquid.xyz" (keccak (TAddress 107)));
            nonce := 1700000000000;
            vault_address := None |})]).
Proof.
  assert (H1 : entropy sample_world (draws sample_world) = Some 7) by reflexivity.
  assert (H2 : 0 < 7 < Hex.secp256k1_n) by (vm_compute; split; reflexivity).
  split; [exact H1|]. split; [exact H2|].
  destruct (approve_agent_registers_key (fun k => k + 100) sample_client sample_world 7 H1 H2)
    as [Ekey [_ E]].
  rewrite E, Ekey. reflexivity.
Defined.

(** C9: [order] is [bulk_order] on the one-element batch and [cancel] is
    [bulk_cancel] on the one-element batch. *)
Theorem single_is_bulk_of_one self o c w :
  order self o w = bulk_order self [o] w /\ cancel self c w = bulk_cancel self [c] w.
Proof. split; reflexivity. Qed.

(** C10: on an empty batch [bulk_order] and [bulk_cancel] do not fail: they
    hash an empty tuple list, sign it, and post an empty [orders]
    (respectively [cancels]) array. *)
Theorem empty_batches_are_submitted self w :
  let t := clock w (reads w) in
  let v := default 0 (vault self) in
  bulk_order self [] w =
    submitted self w
      (l1_envelope self (Order {| grouping := "na"; orders := [] |})
         (TTuple [TArray []; TInt 0; TAddress v; TUint t]) t) /\
  bulk_cancel self [] w =
    submitted self w
      (l1_envelope self (Cancel []) (TTuple [TArray []; TAddress v; TUint t]) t).
Proof. split; [rewrite bulk_order_eq | rewrite bulk_cancel_eq]; reflexivity. Qed.

(** C6: a call naming a symbol the client cannot resolve (anywhere in a
    batch) fails with [AssetNotFound] and hands nothing to the transport. *)
Theorem unresolved_symbol_aborts f self c w :
  unresolved_symbol self c ->
  fst (run_call f self c w) = Err AssetNotFound /\
  posted (snd (run_call f self c w)) = posted w.
Proof.
  intros H. unfold run_call.
  destruct c; simpl in H; try contradiction;
    rewrite bind_unit_fst, bind_unit_snd; try unfold order; try unfold cancel.
  - rewrite bulk_order_eq, bulk_order_loop_unresolved; [split; reflexivity|].
    exists o. split; [apply list_elem_of_singleton; reflexivity|exact H].
  - rewrite bulk_order_eq, bulk_order_loop_unresolved by exact H. split; reflexivity.
  - rewrite bulk_cancel_eq, bulk_cancel_loop_unresolved; [split; reflexivity|].
    exists c. split; [apply list_elem_of_singleton; reflexivity|exact H].
  - rewrite bulk_cancel_eq, bulk_cancel_loop_unresolved by exact H. split; reflexivity.
  - rewrite update_leverage_eq, H. split; reflexivity.
  - rewrite update_isolated_margin_eq. cbv zeta. rewrite H. split; reflexivity.
Qed.

Lemma unresolved_symbol_aborts_witness :
  unresolved_symbol sample_client (CBulkOrder [sample_order "BTC"; sample_order "DOGE"]) /\
  fst (run_call (fun k => k) sample_client (CBulkOrder [sample_order "BTC"; sample_order "DOGE"])
         sample_world) = Err AssetNotFound /\
  posted (snd (run_call (fun k => k) sample_client
                 (CBulkOrder [sample_order "BTC"; sample_order "DOGE"]) sample_world)) = [].
Proof.
  assert (H : unresolved_symbol sample_client (CBulkOrder [sample_order "BTC"; sample_order "DOGE"])).
  { exists (sample_order "DOGE"). split; [|reflexivity].
    apply elem_of_cons. right. apply list_elem_of_singleton. reflexivity. }
  split; [exact H|].
  exact (unresolved_symbol_aborts (fun k => k) sample_client _ sample_world H).
Defined.

(** C5, as the specification words it, fails: when the random source fails,
    [approve_agent] returns before it reads the clock at all. *)
Lemma approve_agent_skips_clock_on_rng_failure : ~ exists f, clock_read_once f.
Proof.
  intros [f H]. specialize (H sample_client CApproveAgent failing_rng_world).
  unfold run_call in H. rewrite bind_unit_snd, approve_agent_eq in H.
  simpl in H. discriminate H.
Qed.

(** C5, as the code has it: every operation other than [approve_agent]
    reads the clock exactly once.  [approve_agent] reads it once when key
    generation, key parsing and signing all succeed, and otherwise not at
    all and posts nothing; in particular a failing random source makes it
    return [RandGen] without reading the clock.  A call that posts has
    read the clock once and the envelope's nonce is that reading; for the
    L1 actions and the USD transfer it is also the time the signature
    covers (the last field of the hashed tuple, or the [time] of the
    transfer), while [approve_agent] signs an [Agent] structure over
    [keccak(address)], which has no time field. *)
Theorem clock_read_at_most_once f self c w :
  let w' := snd (run_call f self c w) in
  let steps_succeed :=
    exists k aw s,
      entropy w (draws w) = Some k /\
      parse_local_wallet f (Hex.drop2 (Hex.encode_hex k)) = Ok aw /\
      sign_with_agent (wallet self) (fst (select_chain self)) "https://hyperliquid.xyz"
        (keccak (TAddress (wallet_address aw))) = Ok s in
  (c <> CApproveAgent -> reads w' = S (reads w)) /\
  (c = CApproveAgent ->
     (steps_succeed -> reads w' = S (reads w)) /\
     (~ steps_succeed -> reads w' = reads w /\ posted w' = posted w) /\
     (entropy w (draws w) = None ->
        reads w' = reads w /\ posted w' = posted w /\
        exists msg, fst (run_call f self c w) = Err (RandGen msg))) /\
  (posted w' = posted w \/
   exists p, posted w' = posted w ++ [(base_url self, p)] /\
     reads w' = S (reads w) /\
     nonce p = clock w (reads w) /\
     (c <> CApproveAgent -> signed_time p = Some (nonce p)) /\
     (c = CApproveAgent ->
        signed_time p = None /\
        exists src a, sig_message (signature p) = Agent src (keccak (TAddress a)))).
Proof.
  intros w' steps_succeed. destruct (is_l1_call c) eqn:Hl1.
  - pose proof (l1_call_posts f self c w Hl1) as HL. cbv zeta in HL.
    destruct HL as [Hr [Hp | (a & pre & Hp)]]; fold w' in Hr, Hp.
    + split; [intros _; exact Hr|]. split; [intros ->; discriminate Hl1|].
      left; exact Hp.
    + split; [intros _; exact Hr|]. split; [intros ->; discriminate Hl1|]. right.
      eexists. split; [exact Hp|]. split; [exact Hr|]. split; [reflexivity|].
      split; [|intros ->; discriminate Hl1].
      intros _. unfold signed_time, l1_envelope. simpl.
      replace (pre ++ [TAddress (default 0 (vault self)); TUint (clock w (reads w))])
        with ((pre ++ [TAddress (default 0 (vault self))]) ++ [TUint (clock w (reads w))])
        by (rewrite <- app_assoc; reflexivity).
      rewrite last_snoc. reflexivity.
  - destruct c; try discriminate Hl1; unfold w', run_call; rewrite bind_unit_snd.
    + rewrite usdc_transfer_eq. split; [intros _; reflexivity|].
      split; [intros H; discriminate H|]. right.
      eexists. split; [reflexivity|]. split; [reflexivity|]. split; [reflexivity|].
      split; [intros _; reflexivity|intros H; discriminate H].
    + rewrite bind_unit_fst. unfold steps_succeed. rewrite approve_agent_eq. cbv zeta.
      split; [intros H; exfalso; apply H; reflexivity|].
      destruct (entropy w (draws w)) as [k|] eqn:He;
        [destruct (parse_local_wallet f (Hex.drop2 (Hex.encode_hex k))) as [aw|e] eqn:Hp|].
      * split.
        -- intros _. split; [intros _; reflexivity|]. split; [|intros H; discriminate H].
           intros Hn. exfalso. apply Hn. exists k, aw.
           unfold select_chain. destruct (String.eqb (base_url self) MAINNET_API_URL);
             (eexists; split; [reflexivity|]; split; [exact Hp|reflexivity]).
        -- right. eexists. split; [reflexivity|]. split; [reflexivity|]. split; [reflexivity|].
           split; [intros H; exfalso; apply H; reflexivity|].
           intros _. split; [reflexivity|]. eexists _, _. reflexivity.
      * split; [|left; reflexivity].
        intros _. split.
        -- intros (k' & aw & s & Hk' & Hp' & _). injection Hk' as <-.
           rewrite Hp in Hp'. discriminate Hp'.
        -- split; [intros _; split; reflexivity|intros H; discriminate H].
      * split; [|left; reflexivity].
        intros _. split; [intros (k' & aw & s & Hk' & _); discriminate Hk'|].
        split; [intros _; split; reflexivity|].
        intros _. split; [reflexivity|]. split; [reflexivity|]. eexists. reflexivity.
Qed.

(** C2, as the specification words it, fails: the L1 signature does not
    follow the base URL.  The argument uses only that [sign_l1_action] is
    given no network: the mainnet client and a testnet client post the
    same envelope, which cannot be signed for chain 42161 in one case and
    for another chain in the other. *)
Lemma l1_signature_ignores_base_url : ~ exists f, domain_follows_url f.
Proof.
  intros [f H].
  set (p := l1_envelope sample_client (Cancel [])
              (TTuple [TArray []; TAddress 0; TUint 1700000000000]) 1700000000000).
  pose proof (H sample_client (CBulkCancel []) sample_world MAINNET_API_URL p eq_refl eq_refl)
    as H1.
  pose proof (H (with_base_url sample_client "https://api.hyperliquid-testnet.xyz")
                (CBulkCancel []) sample_world "https://api.hyperliquid-testnet.xyz" p
                eq_refl eq_refl) as H2.
  cbn [base_url sample_client with_base_url] in H1, H2.
  rewrite String.eqb_refl in H1.
  replace (String.eqb "https://api.hyperliquid-testnet.xyz" MAINNET_API_URL) with false
    in H2 by reflexivity.
  exact (H2 H1).
Qed.

(** C2, as the code has it: the USD transfer is signed for chain 42161 on
    the mainnet URL and for chain 421613 on any other URL; the L1 actions
    are signed through [sign_l1_action], which receives no network, so the
    envelope an L1 call posts is the same whatever the base URL. *)
Theorem signing_domains_by_url f self c w url amount destination :
  (forall u p,
     posted (snd (usdc_transfer self amount destination w)) = posted w ++ [(u, p)] ->
     chain_id_of p = if String.eqb (base_url self) MAINNET_API_URL then 42161 else 421613) /\
  421613 <> 42161 /\
  (is_l1_call c = true ->
   map snd (posted (snd (run_call f (with_base_url self url) c w))) =
   map snd (posted (snd (run_call f self c w)))).
Proof.
  split; [|split; [lia|]].
  - intros u p Hp. rewrite usdc_transfer_eq in Hp. simpl in Hp.
    apply posted_extend_inv in Hp. injection Hp as _ <-.
    unfold chain_id_of. simpl.
    destruct (String.eqb (base_url self) MAINNET_API_URL); reflexivity.
  - intros Hl1.
    destruct c; try discriminate Hl1; unfold run_call; rewrite !bind_unit_snd;
      try unfold order; try unfold cancel.
    + rewrite !bulk_order_eq. simpl (coin_to_asset (with_base_url self url)).
      destruct (bulk_order_loop _ _ _ _) as [[ht tr]|e]; simpl; [rewrite !map_app|]; reflexivity.
    + rewrite !bulk_order_eq. simpl (coin_to_asset (with_base_url self url)).
      destruct (bulk_order_loop _ _ _ _) as [[ht tr]|e]; simpl; [rewrite !map_app|]; reflexivity.
    + rewrite !bulk_cancel_eq. simpl (coin_to_asset (with_base_url self url)).
      destruct (bulk_cancel_loop _ _ _ _) as [[ht tr]|e]; simpl; [rewrite !map_app|]; reflexivity.
    + rewrite !bulk_cancel_eq. simpl (coin_to_asset (with_base_url self url)).
      destruct (bulk_cancel_loop _ _ _ _) as [[ht tr]|e]; simpl; [rewrite !map_app|]; reflexivity.
    + rewrite !update_leverage_eq. simpl (coin_to_asset (with_base_url self url)).
      destruct (coin_to_asset self !! coin); simpl; [rewrite !map_app|]; reflexivity.
    + rewrite !update_isolated_margin_eq. cbv zeta. simpl (coin_to_asset (with_base_url self url)).
      destruct (coin_to_asset self !! coin); simpl; [rewrite !map_app|]; reflexivity.
Qed.

(** C4, as the specification words it, fails: the hash input of
    [approve_agent] is the agent address alone, with no vault slot, even
    when no vault is configured. *)
Lemma agent_hash_input_has_no_vault_slot : ~ exists f, vault_zero_filled_everywhere f.
Proof.
  intros [f H].
  assert (H1 : entropy sample_world (draws sample_world) = Some 7) by reflexivity.
  assert (H2 : 0 < 7 < Hex.secp256k1_n) by (vm_compute; split; reflexivity).
  pose proof (approve_agent_registers_key f sample_client sample_world 7 H1 H2) as X.
  cbv zeta in X. destruct X as [_ [_ E]].
  set (p := {| action := Connect {| connect_chain := "Arbitrum";
                                    agent := Agent "https://hyperliquid.xyz" (keccak (TAddress (f 7)));
                                    agent_address := f 7 |};
               signature := Sig 11 mainnet_agent_domain
                                (Agent "https://hyperliquid.xyz" (keccak (TAddress (f 7))));
               nonce := 1700000000000;
               vault_address := None |}).
  destruct (H sample_client CApproveAgent sample_world MAINNET_API_URL p (TAddress (f 7)))
    as (ts & Hts & _).
  - reflexivity.
  - unfold run_call. rewrite bind_unit_snd, E. reflexivity.
  - reflexivity.
  - discriminate Hts.
Qed.

(** C4, as the code has it: a bulk cancel hashes, per cancel, the pair
    (asset index, order id), and signs [keccak (pairs, vault or zero,
    timestamp)]; every L1 action (order, cancel, leverage, margin) puts the
    vault address, or the zero address when none is configured, in the
    next-to-last slot of its hash input, before the timestamp; the hash
    input of [approve_agent] is the agent address alone. *)
Theorem cancel_hash_and_vault_slot f self cs w :
  Forall (fun c => is_Some (coin_to_asset self !! cancel_asset c)) cs ->
  (exists ts rs,
     Forall2 (fun c t => exists a, coin_to_asset self !! cancel_asset c = Some a /\
                                   t = TTuple [TUint a; TUint (cancel_oid c)]) cs ts /\
     Forall2 (fun c r => exists a, coin_to_asset self !! cancel_asset c = Some a /\
                                   r = {| c_asset := a; c_oid := cancel_oid c |}) cs rs /\
     bulk_cancel self cs w =
       submitted self w
         (l1_envelope self (Cancel rs)
            (TTuple [TArray ts; TAddress (default 0 (vault self)); TUint (clock w (reads w))])
            (clock w (reads w)))) /\
  (forall c w' u p,
     is_l1_call c = true ->
     posted (snd (run_call f self c w')) = posted w' ++ [(u, p)] ->
     exists pre,
       hash_input p = Some (TTuple (pre ++ [TAddress (default 0 (vault self)); TUint (nonce p)]))) /\
  (forall u p,
     posted (snd (approve_agent f self w)) = posted w ++ [(u, p)] ->
     exists a, hash_input p = Some (TAddress a)).
Proof.
  intros Hcs. split; [|split].
  - destruct (bulk_cancel_loop_resolved _ cs [] [] Hcs) as (ts & rs & E & F1 & F2).
    exists ts, rs. split; [exact F1|]. split; [exact F2|].
    rewrite bulk_cancel_eq, E. reflexivity.
  - intros c w' u p Hl1 Hp.
    pose proof (l1_call_posts f self c w' Hl1) as HL. cbv zeta in HL.
    destruct HL as [_ [Hq | (a & pre & Hq)]]; rewrite Hq in Hp.
    + exfalso. exact (posted_extend_neq _ _ Hp).
    + apply posted_extend_inv in Hp. injection Hp as _ Hp. subst p.
      exists pre. reflexivity.
  - intros u p Hp. rewrite approve_agent_eq in Hp. cbv zeta in Hp.
    destruct (entropy w (draws w)) as [k|];
      [destruct (parse_local_wallet f _) as [aw|e]|]; simpl in Hp.
    + apply posted_extend_inv in Hp. injection Hp as _ Hp. subst p.
      eexists. reflexivity.
    + exfalso. exact (posted_extend_neq _ _ Hp).
    + exfalso. exact (posted_extend_neq _ _ Hp).
Qed.

Lemma cancel_hash_and_vault_slot_witness :
  Forall (fun c => is_Some (coin_to_asset sample_client !! cancel_asset c))
    [{| cancel_asset := "ETH"; cancel_oid := 9 |}] /\
  bulk_cancel sample_client [{| cancel_asset := "ETH"; cancel_oid := 9 |}] sample_world =
    submitted sample_client sample_world
      (l1_envelope sample_client (Cancel [{| c_asset := 1; c_oid := 9 |}])
         (TTuple [TArray [TTuple [TUint 1; TUint 9]]; TAddress 0; TUint 1700000000000])
         1700000000000).
Proof.
  assert (Ha : coin_to_asset sample_client !! "ETH" = Some 1) by reflexivity.
  assert (H : Forall (fun c => is_Some (coin_to_asset sample_client !! cancel_asset c))
                [{| cancel_asset := "ETH"; cancel_oid := 9 |}]).
  { constructor; [exists 1; exact Ha|constructor]. }
  split; [exact H|].
  destruct (cancel_hash_and_vault_slot (fun k => k) sample_client _ sample_world H)
    as [(ts & rs & F1 & F2 & E) _].
  rewrite E.
  inversion F1 as [|c1 t1 cs1 ts1 (a1 & Ha1 & ->) F1' Hc1 Ht1]. inversion F1'. subst.
  inversion F2 as [|c2 r2 cs2 rs2 (a2 & Ha2 & ->) F2' Hc2 Hr2]. inversion F2'. subst.
  cbn [cancel_asset] in Ha1, Ha2. rewrite Ha in Ha1, Ha2.
  injection Ha1 as <-. injection Ha2 as <-. reflexivity.
Defined.

(** C8, as the specification words it, fails: the index is [asset_ind as
    u32], so in a universe of [2^32 + 1] distinct names the last one is
    stored at index 0, not at its position [2^32]. *)
Lemma wide_universe_index_wraps : ~ index_is_position.
Proof.
  intros H.
  destruct (numbered_universe_last (Z.to_nat (2 ^ 32))) as (Hnd & Hl & Hb).
  change (map (fun k => {| name := pretty k; sz_decimals := 0 |})
             (seq 0 (S (Z.to_nat (2 ^ 32))))) with wide_universe in Hnd, Hl, Hb.
  specialize (H wide_universe _ _ Hnd Hl). rewrite Hb in H.
  rewrite Z2Nat.id in H by lia. rewrite Z_mod_same_full in H.
  injection H as H. lia.
Qed.

(** C8, as the code has it: [new] builds the index once from the universe
    it is given and stores it in the client, which no operation changes
    (they all take the client by value).  Each symbol maps to its
    zero-based position taken modulo [2^32] (its last position if it is
    repeated), an unknown symbol has no entry, and when the symbols are
    distinct and there are at most [2^32] of them each maps to exactly its
    position. *)
Theorem coin_to_asset_positions wl url_opt m vault_address w :
  new wl url_opt (Some m) vault_address w =
    (Ok {| base_url := default MAINNET_API_URL url_opt; wallet := wl; meta := m;
           vault := vault_address; coin_to_asset := build_coin_to_asset (universe m) |}, w) /\
  (forall s j,
     map name (universe m) !! j = Some s ->
     (forall j', map name (universe m) !! j' = Some s -> (j' <= j)%nat) ->
     build_coin_to_asset (universe m) !! s = Some (Z.of_nat j mod 2 ^ 32)) /\
  (forall s, s ∉ map name (universe m) -> build_coin_to_asset (universe m) !! s = None) /\
  (Z.of_nat (length (universe m)) <= 2 ^ 32 -> NoDup (map name (universe m)) ->
   forall s j, map name (universe m) !! j = Some s ->
     build_coin_to_asset (universe m) !! s = Some (Z.of_nat j)).
Proof.
  split; [reflexivity|]. split; [|split].
  - intros s j Hj Hlast. unfold build_coin_to_asset.
    rewrite (coin_to_asset_from_last 0 _ _ s j Hj Hlast). reflexivity.
  - intros s Hs. unfold build_coin_to_asset.
    rewrite coin_to_asset_from_absent by exact Hs. apply lookup_empty.
  - intros Hlen Hnd s j Hj. unfold build_coin_to_asset.
    rewrite (coin_to_asset_from_last 0 _ _ s j Hj).
    + simpl. rewrite Z.mod_small; [reflexivity|].
      apply lookup_lt_Some in Hj. rewrite length_map in Hj. lia.
    + intros j' Hj'. rewrite (NoDup_lookup _ _ _ _ Hnd Hj' Hj). lia.
Qed.

End Claims.

(** ** Further properties of the client *)

Module Extras.

Import F64 Exchange Observe Facts.

(** *** Helper lemmas *)

(** What one call does to the world: it never changes the clock, the
    random source or the transport; only [approve_agent] draws randomness;
    and it posts at most one envelope, to the client's base URL, carrying
    the client's optional vault as it is and the clock reading as nonce. *)
Lemma run_call_effects f self c w :
  let w' := snd (run_call f self c w) in
  clock w' = clock w /\ entropy w' = entropy w /\ transport w' = transport w /\
  draws w' = match c with CApproveAgent => S (draws w) | _ => draws w end /\
  (posted w' = posted w \/
   exists p, posted w' = posted w ++ [(base_url self, p)] /\
     reads w' = S (reads w) /\ nonce p = clock w (reads w) /\ vault_address p = vault self).
Proof.
  intros w'. unfold w', run_call.
  destruct c; rewrite bind_unit_snd; try unfold order; try unfold cancel.
  - rewrite usdc_transfer_eq.
    do 4 (split; [reflexivity|]). right. eexists.
    split; [reflexivity|]. split; [reflexivity|]. split; reflexivity.
  - rewrite bulk_order_eq. destruct (bulk_order_loop _ _ _ _) as [[ht tr]|e];
      do 4 (split; [reflexivity|]); [right; eexists; split; [reflexivity|];
      split; [reflexivity|]; split; reflexivity|left; reflexivity].
  - rewrite bulk_order_eq. destruct (bulk_order_loop _ _ _ _) as [[ht tr]|e];
      do 4 (split; [reflexivity|]); [right; eexists; split; [reflexivity|];
      split; [reflexivity|]; split; reflexivity|left; reflexivity].
  - rewrite bulk_cancel_eq. destruct (bulk_cancel_loop _ _ _ _) as [[ht tr]|e];
      do 4 (split; [reflexivity|]); [right; eexists; split; [reflexivity|];
      split; [reflexivity|]; split; reflexivity|left; reflexivity].
  - rewrite bulk_cancel_eq. destruct (bulk_cancel_loop _ _ _ _) as [[ht tr]|e];
      do 4 (split; [reflexivity|]); [right; eexists; split; [reflexivity|];
      split; [reflexivity|]; split; reflexivity|left; reflexivity].
  - rewrite update_leverage_eq. destruct (coin_to_asset self !! coin) as [idx|];
      do 4 (split; [reflexivity|]); [right; eexists; split; [reflexivity|];
      split; [reflexivity|]; split; reflexivity|left; reflexivity].
  - rewrite update_isolated_margin_eq. cbv zeta. destruct (coin_to_asset self !! coin) as [idx|];
      do 4 (split; [reflexivity|]); [right; eexists; split; [reflexivity|];
      split; [reflexivity|]; split; reflexivity|left; reflexivity].
  - rewrite approve_agent_eq. cbv zeta.
    destruct (entropy w (draws w)) as [k|];
      [destruct (parse_local_wallet f _) as [aw|e]|];
      do 4 (split; [reflexivity|]);
      [right; eexists; split; [reflexivity|]; split; [reflexivity|]; split; reflexivity
      |left; reflexivity|left; reflexivity].
Qed.

Lemma coin_to_asset_from_some i l m s v :
  coin_to_asset_from i l m !! s = Some v ->
  (exists j, map name l !! j = Some s /\ v = Z.of_nat (i + j) mod 2 ^ 32) \/
  ((s ∉ map name l) /\ m !! s = Some v).
Proof.
  revert i m. induction l as [|a l IH]; intros i m H; simpl in H.
  - right. split; [apply not_elem_of_nil|exact H].
  - destruct (IH _ _ H) as [(j & Hj & ->)|[Hs Hm]].
    + left. exists (S j). split; [exact Hj|]. do 2 f_equal. lia.
    + destruct (decide (name a = s)) as [<-|Hne].
      * rewrite lookup_insert_eq in Hm. injection Hm as <-.
        left. exists 0%nat. split; [reflexivity|]. do 2 f_equal. lia.
      * rewrite lookup_insert_ne in Hm by exact Hne.
        right. split; [|exact Hm].
        simpl. rewrite not_elem_of_cons. split; [congruence|exact Hs].
Qed.

Lemma coin_to_asset_from_in i l m s :
  s ∈ map name l -> is_Some (coin_to_asset_from i l m !! s).
Proof.
  revert i m. induction l as [|a l IH]; intros i m Hs; simpl in Hs.
  - apply not_elem_of_nil in Hs. contradiction.
  - simpl. destruct (decide (s ∈ map name l)) as [Hin|Hout].
    + apply IH, Hin.
    + rewrite coin_to_asset_from_absent by exact Hout.
      apply elem_of_cons in Hs as [->|Hin]; [|contradiction].
      rewrite lookup_insert_eq. eexists. reflexivity.
Qed.

Lemma round_half_away_mag_nonneg m e : 0 <= round_half_away_mag m e.
Proof.
  unfold round_half_away_mag. destruct (0 <=? e) eqn:He.
  - apply Z.leb_le in He. apply Z.mul_nonneg_nonneg; [lia|apply Z.pow_nonneg; lia].
  - apply Z.leb_gt in He.
    assert (0 < 2 ^ (- e)) by (apply Z.pow_pos_nonneg; lia).
    apply Z.div_pos; lia.
Qed.

Lemma round_as_i64_range x : i64_min <= round_as_i64 x <= i64_max.
Proof.
  destruct x as [s|s| |s m e]; simpl;
    change i64_min with (-9223372036854775808);
    change i64_max with 9223372036854775807; try lia.
  - destruct s; lia.
  - pose proof (round_half_away_mag_nonneg m e). destruct s; lia.
Qed.

Lemma binary_round_aux_negb s mx ex lx :
  binary_round_aux prec emax (negb s) mx ex lx = SFopp (binary_round_aux prec emax s mx ex lx).
Proof.
  unfold binary_round_aux.
  destruct (shr_fexp prec emax mx ex lx) as [mrs' e'].
  destruct (shr_fexp prec emax _ e' loc_Exact) as [mrs'' e''].
  destruct (shr_m mrs'') as [|m|m]; [reflexivity| |reflexivity].
  destruct (e'' <=? emax - prec); reflexivity.
Qed.

Lemma mul_opp_l x y : mul (SFopp x) y = SFopp (mul x y).
Proof.
  unfold mul.
  destruct x as [sx|sx| |sx mx ex]; destruct y as [sy|sy| |sy my ey];
    cbn [SFmul SFopp]; try reflexivity; try (destruct sx, sy; reflexivity).
  rewrite <- binary_round_aux_negb. f_equal. destruct sx, sy; reflexivity.
Qed.

Lemma round_as_i64_opp z :
  i64_min < round_as_i64 z < i64_max -> round_as_i64 (SFopp z) = - round_as_i64 z.
Proof.
  destruct z as [s|s| |s m e]; cbn [SFopp round_as_i64]; intros H;
    change i64_min with (-9223372036854775808) in *;
    change i64_max with 9223372036854775807 in *.
  - reflexivity.
  - destruct s; simpl in *; lia.
  - reflexivity.
  - cbv zeta in *. pose proof (round_half_away_mag_nonneg m e).
    destruct s; simpl negb; cbv iota; lia.
Qed.

Lemma hex_digit_lower d : all_lower_hex (String (Hex.hex_digit d) EmptyString) = true.
Proof.
  unfold Hex.hex_digit.
  destruct d as [|p|p];
    try (repeat match goal with |- context [match ?q with _ => _ end] => destruct q end);
    reflexivity.
Qed.

Lemma all_lower_hex_digits k z acc :
  all_lower_hex acc = true -> all_lower_hex (Hex.hex_digits k z acc) = true.
Proof.
  revert z acc. induction k as [|k IH]; intros z acc H; simpl; [exact H|].
  apply IH. pose proof (hex_digit_lower (z mod 16)) as Hd. simpl in Hd |- *.
  rewrite andb_true_r in Hd. rewrite Hd, H. reflexivity.
Qed.

Lemma parse_secret_digits_invalid k :
  0 <= k < 16 ^ 64 -> (k = 0 \/ Hex.secp256k1_n <= k) ->
  Hex.parse_secret (Hex.hex_digits 64 k "") = None.
Proof.
  intros Hk Hbad. unfold Hex.parse_secret.
  change 64%nat with (S (S 62)). rewrite strip_0x_hex_digits.
  change (S (S 62)) with 64%nat.
  rewrite hex_digits_length. simpl (64 + String.length "")%nat.
  rewrite decide_True by reflexivity.
  rewrite hex_decode_digits. simpl Hex.hex_decode.
  change (16 ^ Z.of_nat 64) with (16 ^ 64).
  rewrite Z.mod_small by lia.
  replace (0 * 16 ^ 64 + k) with k by ring.
  destruct Hbad as [->|Hn]; [reflexivity|].
  assert (Hf : (k <? Hex.secp256k1_n) = false) by (apply Z.ltb_ge; exact Hn).
  rewrite Hf, andb_false_r. reflexivity.
Qed.

(** *** The symbol table *)

(** A symbol has an index exactly when it occurs in the universe, and every
    stored index is below [2^32] and is the position of one of the symbol's
    occurrences taken modulo [2^32]. *)
Theorem coin_to_asset_domain u s :
  (is_Some (build_coin_to_asset u !! s) <-> s ∈ map name u) /\
  (forall v, build_coin_to_asset u !! s = Some v ->
     0 <= v < 2 ^ 32 /\ exists j, map name u !! j = Some s /\ v = Z.of_nat j mod 2 ^ 32).
Proof.
  unfold build_coin_to_asset. split; [split|].
  - intros [v Hv]. apply coin_to_asset_from_some in Hv as [(j & Hj & _)|[_ Hv]].
    + apply list_elem_of_lookup. exists j. exact Hj.
    + rewrite lookup_empty in Hv. discriminate.
  - apply coin_to_asset_from_in.
  - intros v Hv. apply coin_to_asset_from_some in Hv as [(j & Hj & ->)|[_ Hv]].
    + split; [apply Z.mod_pos_bound; lia|]. exists j. split; [exact Hj|reflexivity].
    + rewrite lookup_empty in Hv. discriminate.
Qed.

(** *** Transfers and agents *)

(** [usdc_transfer] checks neither amount nor destination and cannot fail
    before the transport: it posts exactly one envelope to the base URL,
    whose action payload is the very message it signs (destination, amount
    and, as time, the nonce), and returns the transport's answer. *)
Theorem usdc_transfer_posts_signed_payload self amount destination w :
  exists p l1_name,
    usdc_transfer self amount destination w = submitted self w p /\
    action p = UsdTransfer l1_name (sig_message (signature p)) /\
    sig_message (signature p) = UsdTransferSignPayload destination amount (nonce p) /\
    nonce p = clock w (reads w).
Proof.
  rewrite usdc_transfer_eq. cbv zeta. eexists _, _.
  split; [reflexivity|]. split; [reflexivity|]. split; reflexivity.
Qed.

(** The network is chosen by exact string equality with the mainnet URL:
    any other base URL (a trailing slash included) makes both
    [usdc_transfer] and [approve_agent] label the action ["ArbitrumGoerli"]
    and sign for the testnet chain 421613. *)
Theorem non_mainnet_url_uses_testnet f self w :
  base_url self <> MAINNET_API_URL ->
  (forall amount destination, exists p,
     usdc_transfer self amount destination w = submitted self w p /\
     chain_id_of p = 421613 /\
     action p = UsdTransfer "ArbitrumGoerli" (UsdTransferSignPayload destination amount (nonce p))) /\
  (forall u p,
     posted (snd (approve_agent f self w)) = posted w ++ [(u, p)] ->
     chain_id_of p = 421613 /\ exists a, action p = Connect a /\ connect_chain a = "ArbitrumGoerli").
Proof.
  intros Hne. apply String.eqb_neq in Hne. split.
  - intros amount destination. rewrite usdc_transfer_eq. cbv zeta. rewrite Hne.
    eexists. split; [reflexivity|]. split; reflexivity.
  - intros u p Hp. rewrite approve_agent_eq in Hp. cbv zeta in Hp. rewrite Hne in Hp.
    destruct (entropy w (draws w)) as [k|];
      [destruct (parse_local_wallet f _) as [aw|e]|]; simpl in Hp.
    + apply posted_extend_inv in Hp. injection Hp as _ Hp. subst p.
      split; [reflexivity|]. eexists. split; reflexivity.
    + exfalso. exact (posted_extend_neq _ _ Hp).
    + exfalso. exact (posted_extend_neq _ _ Hp).
Qed.

Lemma non_mainnet_url_uses_testnet_witness :
  base_url (with_base_url sample_client "https://api.hyperliquid.xyz/") <> MAINNET_API_URL /\
  (forall amount destination, exists p,
     usdc_transfer (with_base_url sample_client "https://api.hyperliquid.xyz/")
       amount destination sample_world =
       submitted (with_base_url sample_client "https://api.hyperliquid.xyz/") sample_world p /\
     chain_id_of p = 421613 /\
     action p = UsdTransfer "ArbitrumGoerli" (UsdTransferSignPayload destination amount (nonce p))) /\
  (forall u p,
     posted (snd (approve_agent (fun k => k) (with_base_url sample_client "https://api.hyperliquid.xyz/")
                    sample_world)) = posted sample_world ++ [(u, p)] ->
     chain_id_of p = 421613 /\ exists a, action p = Connect a /\ connect_chain a = "ArbitrumGoerli").
Proof.
  assert (H : base_url (with_base_url sample_client "https://api.hyperliquid.xyz/") <> MAINNET_API_URL)
    by (apply String.eqb_neq; reflexivity).
  split; [exact H|].
  exact (non_mainnet_url_uses_testnet (fun k => k) _ sample_world H).
Defined.

(** When the transport fails, [approve_agent] returns the transport's error
    and not the key it generated, although the registration request, naming
    the agent's address, has been posted. *)
Theorem approve_agent_transport_failure f self w k e :
  entropy w (draws w) = Some k ->
  0 < k < Hex.secp256k1_n ->
  (forall p, transport w (base_url self) p = Err e) ->
  fst (approve_agent f self w) = Err e /\
  exists p a, posted (snd (approve_agent f self w)) = posted w ++ [(base_url self, p)] /\
    action p = Connect a /\ agent_address a = f k.
Proof.
  intros Hk Hr Ht. rewrite approve_agent_eq. cbv zeta. rewrite Hk.
  unfold parse_local_wallet. rewrite drop2_encode_hex, (parse_secret_roundtrip k Hr).
  cbv beta iota. rewrite Ht.
  split; [reflexivity|]. eexists _, _. split; [reflexivity|]. split; reflexivity.
Qed.

Lemma approve_agent_transport_failure_witness :
  entropy failing_transport_world (draws failing_transport_world) = Some 7 /\
  0 < 7 < Hex.secp256k1_n /\
  (forall p, transport failing_transport_world (base_url sample_client) p =
             Err (JsonParse "connection refused")) /\
  fst (approve_agent (fun k => k + 100) sample_client failing_transport_world) =
    Err (JsonParse "connection refused") /\
  exists p a, posted (snd (approve_agent (fun k => k + 100) sample_client failing_transport_world)) =
              posted failing_transport_world ++ [(base_url sample_client, p)] /\
    action p = Connect a /\ agent_address a = 107.
Proof.
  assert (H1 : entropy failing_transport_world (draws failing_transport_world) = Some 7)
    by reflexivity.
  assert (H2 : 0 < 7 < Hex.secp256k1_n) by (vm_compute; split; reflexivity).
  assert (H3 : forall p, transport failing_transport_world (base_url sample_client) p =
                         Err (JsonParse "connection refused")) by reflexivity.
  split; [exact H1|]. split; [exact H2|]. split; [exact H3|].
  exact (approve_agent_transport_failure (fun k => k + 100) sample_client _ 7 _ H1 H2 H3).
Defined.

(** The key [approve_agent] returns is always 64 characters, each a digit
    or a lowercase [a .. f], with no [0x] prefix. *)
Theorem approve_agent_key_format f self w key st :
  fst (approve_agent f self w) = Ok (key, st) ->
  String.length key = 64%nat /\ all_lower_hex key = true.
Proof.
  intros H. rewrite approve_agent_eq in H. cbv zeta in H.
  destruct (entropy w (draws w)) as [k|]; [|discriminate H].
  destruct (parse_local_wallet f _) as [aw|e]; cbn [fst] in H; [|discriminate H].
  destruct (transport _ _ _) as [st'|e]; [|discriminate H].
  injection H as <- _. rewrite drop2_encode_hex. split.
  - rewrite hex_digits_length. reflexivity.
  - apply all_lower_hex_digits. reflexivity.
Qed.

Lemma approve_agent_key_format_witness :
  fst (approve_agent (fun k => k) sample_client sample_world) =
    Ok ("0000000000000000000000000000000000000000000000000000000000000007", StatusOk "ok") /\
  String.length "0000000000000000000000000000000000000000000000000000000000000007" = 64%nat /\
  all_lower_hex "0000000000000000000000000000000000000000000000000000000000000007" = true.
Proof.
  assert (H : fst (approve_agent (fun k => k) sample_client sample_world) =
    Ok ("0000000000000000000000000000000000000000000000000000000000000007", StatusOk "ok")).
  { rewrite approve_agent_eq. cbv zeta. cbn [entropy draws sample_world].
    unfold parse_local_wallet. rewrite drop2_encode_hex.
    rewrite (parse_secret_roundtrip 7) by (vm_compute; split; reflexivity).
    reflexivity. }
  split; [exact H|].
  exact (approve_agent_key_format (fun k => k) sample_client sample_world _ _ H).
Defined.

(** If the 32 random bytes are not a valid secret (zero, or not below the
    secp256k1 order), [approve_agent] fails with [PrivateKeyParse]: it
    posts nothing and does not read the clock, having used one draw. *)
Theorem approve_agent_rejects_invalid_key f self w k :
  entropy w (draws w) = Some k ->
  0 <= k < 16 ^ 64 ->
  k = 0 \/ Hex.secp256k1_n <= k ->
  (exists msg, fst (approve_agent f self w) = Err (PrivateKeyParse msg)) /\
  snd (approve_agent f self w) = with_draws w (S (draws w)).
Proof.
  intros Hk Hr Hbad. rewrite approve_agent_eq. cbv zeta. rewrite Hk.
  unfold parse_local_wallet. rewrite drop2_encode_hex, (parse_secret_digits_invalid k Hr Hbad).
  split; [eexists; reflexivity|reflexivity].
Qed.

Lemma approve_agent_rejects_invalid_key_witness :
  entropy zero_key_world (draws zero_key_world) = Some 0 /\
  (exists msg, fst (approve_agent (fun k => k) sample_client zero_key_world) =
               Err (PrivateKeyParse msg)) /\
  snd (approve_agent (fun k => k) sample_client zero_key_world) =
    with_draws zero_key_world 1.
Proof.
  assert (H1 : entropy zero_key_world (draws zero_key_world) = Some 0) by reflexivity.
  assert (H2 : 0 <= 0 < 16 ^ 64) by lia.
  assert (H3 : 0 = 0 \/ Hex.secp256k1_n <= 0) by (left; reflexivity).
  split; [exact H1|].
  exact (approve_agent_rejects_invalid_key (fun k => k) sample_client zero_key_world 0 H1 H2 H3).
Defined.

(** *** Envelopes and successive calls *)

(** Every envelope a call posts goes to the client's base URL and carries
    the client's vault address as configured: it stays absent when no vault
    is set (only the hash inputs zero-fill it). *)
Theorem posted_envelope_url_and_vault f self c w u p :
  posted (snd (run_call f self c w)) = posted w ++ [(u, p)] ->
  u = base_url self /\ vault_address p = vault self.
Proof.
  intros H. pose proof (run_call_effects f self c w) as E. cbv zeta in E.
  destruct E as (_ & _ & _ & _ & [E | (q & E & _ & _ & Hv)]); rewrite E in H.
  - exfalso. exact (posted_extend_neq _ _ H).
  - apply posted_extend_inv in H. injection H as <- <-. split; [reflexivity|exact Hv].
Qed.

Lemma posted_envelope_url_and_vault_witness :
  posted (snd (run_call (fun k => k) sample_client (CBulkCancel []) sample_world)) =
    posted sample_world ++
      [(MAINNET_API_URL,
        l1_envelope sample_client (Cancel [])
          (TTuple [TArray []; TAddress 0; TUint 1700000000000]) 1700000000000)] /\
  MAINNET_API_URL = base_url sample_client /\
  vault_address (l1_envelope sample_client (Cancel [])
                   (TTuple [TArray []; TAddress 0; TUint 1700000000000]) 1700000000000) = None.
Proof.
  assert (H : posted (snd (run_call (fun k => k) sample_client (CBulkCancel []) sample_world)) =
    posted sample_world ++
      [(MAINNET_API_URL,
        l1_envelope sample_client (Cancel [])
          (TTuple [TArray []; TAddress 0; TUint 1700000000000]) 1700000000000)])
    by reflexivity.
  split; [exact H|].
  exact (posted_envelope_url_and_vault (fun k => k) sample_client _ sample_world _ _ H).
Defined.

(** Over a clock that strictly increases, two calls made one after the
    other that both post give the second envelope a strictly larger nonce. *)
Theorem nonces_increase_across_calls f self1 self2 c1 c2 w u1 p1 u2 p2 :
  (forall i j, (i < j)%nat -> clock w i < clock w j) ->
  posted (snd (run_call f self1 c1 w)) = posted w ++ [(u1, p1)] ->
  posted (snd (run_call f self2 c2 (snd (run_call f self1 c1 w)))) =
    posted (snd (run_call f self1 c1 w)) ++ [(u2, p2)] ->
  nonce p1 < nonce p2.
Proof.
  intros Hmono H1 H2.
  pose proof (run_call_effects f self1 c1 w) as E1. cbv zeta in E1.
  destruct E1 as (Hc & _ & _ & _ & [E1 | (q1 & E1 & Hr1 & Hn1 & _)]); rewrite E1 in H1.
  { exfalso. exact (posted_extend_neq _ _ H1). }
  apply posted_extend_inv in H1. injection H1 as _ <-.
  set (w1 := snd (run_call f self1 c1 w)) in *.
  pose proof (run_call_effects f self2 c2 w1) as E2. cbv zeta in E2.
  destruct E2 as (_ & _ & _ & _ & [E2 | (q2 & E2 & _ & Hn2 & _)]); rewrite E2 in H2.
  { exfalso. exact (posted_extend_neq _ _ H2). }
  apply posted_extend_inv in H2. injection H2 as _ <-.
  rewrite Hn1, Hn2, Hc, Hr1. apply Hmono. lia.
Qed.

Lemma nonces_increase_across_calls_witness :
  (forall i j, (i < j)%nat -> clock sample_world i < clock sample_world j) /\
  posted (snd (run_call (fun k => k) sample_client (CBulkCancel []) sample_world)) =
    posted sample_world ++
      [(MAINNET_API_URL,
        l1_envelope sample_client (Cancel [])
          (TTuple [TArray []; TAddress 0; TUint 1700000000000]) 1700000000000)] /\
  posted (snd (run_call (fun k => k) sample_client (CBulkCancel [])
                 (snd (run_call (fun k => k) sample_client (CBulkCancel []) sample_world)))) =
    posted (snd (run_call (fun k => k) sample_client (CBulkCancel []) sample_world)) ++
      [(MAINNET_API_URL,
        l1_envelope sample_client (Cancel [])
          (TTuple [TArray []; TAddress 0; TUint 1700000000001]) 1700000000001)] /\
  nonce (l1_envelope sample_client (Cancel [])
           (TTuple [TArray []; TAddress 0; TUint 1700000000000]) 1700000000000) <
  nonce (l1_envelope sample_client (Cancel [])
           (TTuple [TArray []; TAddress 0; TUint 1700000000001]) 1700000000001).
Proof.
  assert (Hm : forall i j, (i < j)%nat -> clock sample_world i < clock sample_world j).
  { intros i j Hij. simpl. lia. }
  assert (H1 : posted (snd (run_call (fun k => k) sample_client (CBulkCancel []) sample_world)) =
    posted sample_world ++
      [(MAINNET_API_URL,
        l1_envelope sample_client (Cancel [])
          (TTuple [TArray []; TAddress 0; TUint 1700000000000]) 1700000000000)])
    by reflexivity.
  assert (H2 : posted (snd (run_call (fun k => k) sample_client (CBulkCancel [])
                 (snd (run_call (fun k => k) sample_client (CBulkCancel []) sample_world)))) =
    posted (snd (run_call (fun k => k) sample_client (CBulkCancel []) sample_world)) ++
      [(MAINNET_API_URL,
        l1_envelope sample_client (Cancel [])
          (TTuple [TArray []; TAddress 0; TUint 1700000000001]) 1700000000001)])
    by reflexivity.
  split; [exact Hm|]. split; [exact H1|]. split; [exact H2|].
  exact (nonces_increase_across_calls (fun k => k) sample_client sample_client _ _ sample_world
           _ _ _ _ Hm H1 H2).
Defined.

(** Only [approve_agent] uses the random source, drawing once per call;
    no call changes the clock or the transport. *)
Theorem randomness_only_in_approve_agent f self c w :
  draws (snd (run_call f self c w)) =
    match c with CApproveAgent => S (draws w) | _ => draws w end /\
  clock (snd (run_call f self c w)) = clock w.
Proof.
  pose proof (run_call_effects f self c w) as E. cbv zeta in E.
  destruct E as (Hc & _ & _ & Hd & _). split; [exact Hd|exact Hc].
Qed.

(** *** Margin amounts *)

(** The scaled margin amount signed and sent is always within the [i64]
    range: a NaN amount becomes 0 and infinite amounts saturate to the
    [i64] bounds. *)
Theorem isolated_margin_ntli_saturates self amount coin w idx :
  coin_to_asset self !! coin = Some idx ->
  exists n p,
    update_isolated_margin self amount coin w = submitted self w p /\
    action p = UpdateIsolatedMargin idx true n /\
    i64_min <= n <= i64_max /\
    (amount = S754_nan -> n = 0) /\
    (amount = S754_infinity false -> n = i64_max) /\
    (amount = S754_infinity true -> n = i64_min).
Proof.
  intros H. rewrite update_isolated_margin_eq. cbv zeta. rewrite H.
  eexists _, _. split; [reflexivity|]. split; [reflexivity|].
  split; [apply round_as_i64_range|].
  split; [intros ->; reflexivity|]. split; intros ->; reflexivity.
Qed.

Lemma isolated_margin_ntli_saturates_witness :
  coin_to_asset sample_client !! "BTC" = Some 0 /\
  exists n p,
    update_isolated_margin sample_client S754_nan "BTC" sample_world = submitted sample_client sample_world p /\
    action p = UpdateIsolatedMargin 0 true n /\
    i64_min <= n <= i64_max /\
    (S754_nan = S754_nan -> n = 0) /\
    (@S754_nan = S754_infinity false -> n = i64_max) /\
    (@S754_nan = S754_infinity true -> n = i64_min).
Proof.
  assert (H : coin_to_asset sample_client !! "BTC" = Some 0) by reflexivity.
  split; [exact H|].
  exact (isolated_margin_ntli_saturates sample_client S754_nan "BTC" sample_world 0 H).
Defined.

(** Negating the amount negates the scaled margin amount that is signed and
    sent, as long as the scaled amount is not at an [i64] bound. *)
Theorem isolated_margin_negation self amount coin w idx :
  coin_to_asset self !! coin = Some idx ->
  i64_min < round_as_i64 (mul amount (of_Z 1000000)) < i64_max ->
  exists n p p',
    update_isolated_margin self amount coin w = submitted self w p /\
    action p = UpdateIsolatedMargin idx true n /\
    update_isolated_margin self (SFopp amount) coin w = submitted self w p' /\
    action p' = UpdateIsolatedMargin idx true (- n).
Proof.
  intros H Hr. rewrite !update_isolated_margin_eq. cbv zeta. rewrite H.
  rewrite mul_opp_l, (round_as_i64_opp _ Hr).
  eexists _, _, _. split; [reflexivity|]. split; [reflexivity|].
  split; reflexivity.
Qed.

Lemma isolated_margin_negation_witness :
  coin_to_asset sample_client !! "BTC" = Some 0 /\
  i64_min < round_as_i64 (mul (dec 1234567 6) (of_Z 1000000)) < i64_max /\
  exists n p p',
    update_isolated_margin sample_client (dec 1234567 6) "BTC" sample_world =
      submitted sample_client sample_world p /\
    action p = UpdateIsolatedMargin 0 true n /\
    update_isolated_margin sample_client (SFopp (dec 1234567 6)) "BTC" sample_world =
      submitted sample_client sample_world p' /\
    action p' = UpdateIsolatedMargin 0 true (- n).
Proof.
  assert (H : coin_to_asset sample_client !! "BTC" = Some 0) by reflexivity.
  assert (Hr : i64_min < round_as_i64 (mul (dec 1234567 6) (of_Z 1000000)) < i64_max)
    by (vm_compute; split; reflexivity).
  split; [exact H|]. split; [exact Hr|].
  exact (isolated_margin_negation sample_client _ "BTC" sample_world 0 H Hr).
Defined.

End Extras.
